(** * PAIRED learning tracker: a shallow embedding of
      [working/implementation/core/learning_tracker.py]

    The development follows the layout of the Python module: the two
    dataclasses, the [LearningTracker] methods in source order of their
    helpers, then the properties of the recording, analysis,
    recommendation and synchronisation paths.

    Modelling conventions.
    - Python [str] is [string] (a byte string; UTF-8 keeps the code-point
      order and substring relation for the ASCII needles the module uses).
      [str.lower] is ASCII case folding.
    - Python [float] results of [len(a) / len(b)] and the literals [0.6],
      [0.7], [0.8] are rationals [Q]: the literal is the rational it is
      written as, a quotient is exact.  IEEE division is correctly rounded
      and monotone, so the comparisons below agree with the floating ones as
      long as list lengths stay below 2^50.  A stored [confidence] is the
      exact value of the stored number.
    - A [dict] whose iteration order is observable is an association list in
      insertion order; a [set] is a [gset]; [list(set(..))] is [elements].
      The order of [elements] stands for the one the interpreter picks,
      which changes with its hash seed: results of different runs are
      compared up to the order of such lists.
    - A [datetime] is its number of microseconds since 1970-01-01T00:00:00
      on the naive calendar, between [datetime.min] and [datetime.max];
      arithmetic that leaves this range raises [OverflowError].
    - The JSON files are fields of a [Store]; a missing or unreadable file
      is [None] and loads as the caller's default, as in [_load_json].
      Writes succeed (the [IOError] branch of [_save_json] only prints).
    - Exceptions are values of [exn] carried by [result]. *)

From Stdlib Require Import ZArith QArith String Ascii List Lia Permutation.
From Stdlib Require Import Sorting.Sorted.
From stdpp Require Import base gmap sets list strings pretty.

Open Scope string_scope.
Open Scope list_scope.

(** ** Exceptions *)

Inductive exn : Type :=
| ZeroDivisionError
| ValueError
| KeyError
| OverflowError.

Inductive result (A : Type) : Type :=
| Ok (a : A)
| Raise (e : exn).
Arguments Ok {A} a.
Arguments Raise {A} e.

#[global] Instance result_ret : MRet result := fun A a => Ok a.
#[global] Instance result_bind : MBind result := fun A B f m =>
  match m with
  | Ok a => f a
  | Raise e => Raise e
  end.

(** ** Strings *)

Module Str.

Definition lower_ascii (c : ascii) : ascii :=
  let n := nat_of_ascii c in
  if (65 <=? n)%nat && (n <=? 90)%nat then ascii_of_nat (n + 32) else c.

(** [s.lower()] *)
Fixpoint lower (s : string) : string :=
  match s with
  | EmptyString => EmptyString
  | String c s' => String (lower_ascii c) (lower s')
  end.

(** [needle in s] *)
Fixpoint contains (needle s : string) : bool :=
  String.prefix needle s ||
  match s with
  | EmptyString => false
  | String _ s' => contains needle s'
  end.

(** [s.split(sep)] for a one-character separator: never empty. *)
Fixpoint split (sep : ascii) (s : string) : list string :=
  match s with
  | EmptyString => [EmptyString]
  | String c s' =>
      if Ascii.eqb c sep then EmptyString :: split sep s'
      else match split sep s' with
           | [] => [String c EmptyString]
           | piece :: pieces => String c piece :: pieces
           end
  end.

(** [sep.join(l)] *)
Fixpoint join (sep : string) (l : list string) : string :=
  match l with
  | [] => EmptyString
  | [x] => x
  | x :: rest => x +:+ sep +:+ join sep rest
  end.

Fixpoint insert_sorted (x : string) (l : list string) : list string :=
  match l with
  | [] => [x]
  | y :: l' => if String.leb x y then x :: l else y :: insert_sorted x l'
  end.

(** [sorted(l)] on strings *)
Definition sorted (l : list string) : list string :=
  foldr insert_sorted [] l.

(** [s[:n]] *)
Definition take (n : nat) (s : string) : string := String.substring 0 n s.

End Str.

(** ** Values stored in a context *)

(** The JSON scalars a context holds.  Floats and nested containers are not
    needed by the properties below and are left out. *)
Inductive PyVal : Type :=
| VStr (s : string)
| VInt (z : Z)
| VBool (b : bool)
| VNone.

(** [str(v)] *)
Definition py_str (v : PyVal) : string :=
  match v with
  | VStr s => s
  | VInt z => pretty z
  | VBool true => "True"
  | VBool false => "False"
  | VNone => "None"
  end.

(** [Dict[str, Any]] in insertion order. *)
Definition Dict : Type := list (string * PyVal).

(** [d.get(key)]; [key in d] is [is_Some]. *)
Fixpoint dict_get (d : Dict) (key : string) : option PyVal :=
  match d with
  | [] => None
  | (k, v) :: d' => if String.eqb k key then Some v else dict_get d' key
  end.

(** [a / b] on two lengths. *)
Definition py_div (a b : nat) : result Q :=
  match b with
  | O => Raise ZeroDivisionError
  | S _ => Ok (Z.of_nat a # Pos.of_nat b)
  end.

Definition Qltb (a b : Q) : bool := negb (Qle_bool b a).

(** ** [_context_matches_pattern] *)

(** The test of the inner loop:
    [key in context and str(context[key]).lower() == str(value).lower()]. *)
Definition key_matches (context : Dict) (item : string * PyVal) : bool :=
  match dict_get context item.1 with
  | Some v => String.eqb (Str.lower (py_str v)) (Str.lower (py_str item.2))
  | None => false
  end.

(** [matches] after the inner loop. *)
Definition count_matches (context pattern_context : Dict) : nat :=
  length (List.filter (key_matches context) pattern_context).

Fixpoint _context_matches_pattern (context : Dict) (pattern_contexts : list Dict)
  : result bool :=
  match pattern_contexts with
  | [] => Ok false
  | pattern_context :: rest =>
      let matches := count_matches context pattern_context in
      let total_keys := length pattern_context in
      ratio ← py_div matches total_keys;
      if Qle_bool (6 # 10) ratio then Ok true
      else _context_matches_pattern context rest
  end.

(** ** The dataclasses *)

Module LearningEntry.
(** [timestamp] is the instant in microseconds; the file stores its
    [isoformat()] text, which [fromisoformat] reads back. *)
Record t : Type := mk {
  timestamp : Z;
  agent : string;
  project : string;
  pattern_type : string;
  context : Dict;
  outcome : string;
  confidence : Q;
  tags : list string;
  hash_id : string
}.
End LearningEntry.

Module PatternInsight.
Record t : Type := mk {
  pattern_id : string;
  pattern_type : string;
  frequency : nat;
  success_rate : Q;
  contexts : list Dict;
  agents : list string;
  projects : list string;
  recommendations : list string;
  last_seen : Z
}.
End PatternInsight.

(** ** Records of [pattern_insights.json] *)

Module Rolling.
Record example : Type := mk_example {
  ex_context : Dict;
  ex_outcome : string;
  ex_confidence : Q
}.
(** The value [_update_pattern_insights] keeps under ["<agent>_<type>"]. *)
Record t : Type := mk {
  count : nat;
  success_count : nat;
  last_updated : Z;
  examples : list example
}.
End Rolling.

Module GlobalInsight.
(** The value [_analyze_global_patterns] builds under ["<type>_<agent>"]. *)
Record t : Type := mk {
  frequency : nat;
  projects : list string;
  success_rate : Q
}.
End GlobalInsight.

(** Both kinds of value live in the same JSON object. *)
Inductive InsightRecord : Type :=
| RollingRecord (r : Rolling.t)
| GlobalRecord (g : GlobalInsight.t).

(** ** The files *)

Record Store : Type := mkStore {
  learning_db : option (list LearningEntry.t);
  insights_db : option (gmap string InsightRecord);
  global_db : option (list LearningEntry.t)
}.

Definition _load_json {A : Type} (file : option A) (default : A) : A :=
  match file with
  | Some data => data
  | None => default
  end.

Definition save_learning_db (data : list LearningEntry.t) (s : Store) : Store :=
  mkStore (Some data) (insights_db s) (global_db s).
Definition save_insights_db (data : gmap string InsightRecord) (s : Store) : Store :=
  mkStore (learning_db s) (Some data) (global_db s).
Definition save_global_db (data : list LearningEntry.t) (s : Store) : Store :=
  mkStore (learning_db s) (insights_db s) (Some data).

(** ** The tracker object *)

Record LearningTracker : Type := mkTracker {
  project_name : string;
  min_pattern_frequency : Z;
  min_confidence_threshold : Q
}.

(** [__init__]: the settings. *)
Definition init (project_name : string) : LearningTracker :=
  mkTracker project_name 3 (7 # 10).

Definition initialize_storage (s : Store) : Store :=
  let s := match learning_db s with
           | None => save_learning_db [] s
           | Some _ => s
           end in
  match insights_db s with
  | None => save_insights_db ∅ s
  | Some _ => s
  end.

(** ** Ordered dictionaries of lists *)

(** [groups[key].append(x)] on a [defaultdict(list)]. *)
Fixpoint groups_append {A : Type} (groups : list (string * list A))
    (key : string) (x : A) : list (string * list A) :=
  match groups with
  | [] => [(key, [x])]
  | (k, xs) :: rest =>
      if String.eqb k key then (k, xs ++ [x]) :: rest
      else (k, xs) :: groups_append rest key x
  end.

(** The grouping loop [for entry in data: groups[key(entry)].append(entry)]. *)
Definition group_by {A : Type} (key : A → string) (data : list A)
  : list (string * list A) :=
  fold_left (fun groups entry => groups_append groups (key entry) entry) data [].

(** [d[key] = v] on an insertion-ordered dict. *)
Fixpoint dict_set {V : Type} (d : list (string * V)) (key : string) (v : V)
  : list (string * V) :=
  match d with
  | [] => [(key, v)]
  | (k, w) :: rest =>
      if String.eqb k key then (k, v) :: rest else (k, w) :: dict_set rest key v
  end.

(** [list(dict.fromkeys(l))] *)
Definition dict_fromkeys (l : list string) : list string :=
  fold_left (fun d x => if decide (x ∈ d) then d else d ++ [x]) l [].

(** [max(l)], which raises on an empty sequence. *)
Definition py_max (l : list Z) : result Z :=
  match l with
  | [] => Raise ValueError
  | x :: rest => Ok (fold_left Z.max rest x)
  end.

(** ** Scoring a bucket *)

(** ['success' in e['outcome'].lower() or e['confidence'] > 0.7] *)
Definition is_successful (e : LearningEntry.t) : bool :=
  Str.contains "success" (Str.lower (LearningEntry.outcome e))
  || Qltb (7 # 10) (LearningEntry.confidence e).

(** The four triggers of [_extract_recommendations] for one outcome. *)
Definition outcome_recommendations (outcome : string) : list string :=
  (if Str.contains "refactor" (Str.lower outcome)
   then ["Consider refactoring similar code patterns"] else [])
  ++ (if Str.contains "test" (Str.lower outcome)
      then ["Add comprehensive tests for this pattern"] else [])
  ++ (if Str.contains "performance" (Str.lower outcome)
      then ["Monitor performance impact of similar changes"] else [])
  ++ (if Str.contains "documentation" (Str.lower outcome)
      then ["Document this pattern for future reference"] else []).

Definition _extract_recommendations (successful_entries : list LearningEntry.t)
  : list string :=
  let recommendations :=
    concat (map (fun e => outcome_recommendations (LearningEntry.outcome e))
                successful_entries) in
  elements (list_to_set recommendations : gset string).

Definition _create_pattern_signature (entry : LearningEntry.t) : string :=
  let context_keys := Str.sorted (map fst (LearningEntry.context entry)) in
  let context_signature := Str.join "_" (take 3 context_keys) in
  LearningEntry.pattern_type entry +:+ "_" +:+ context_signature.

(** [signature.split('_')[0]] *)
Definition split_head (signature : string) : string :=
  hd EmptyString (Str.split "_"%char signature).

Section Tracker.

(** Library functions that only feed identifiers. *)
(** [hashlib.sha256(s.encode()).hexdigest()] *)
Variable sha256_hexdigest : string → string.
(** [datetime.isoformat()] of an instant *)
Variable isoformat : Z → string.
(** [str(d)] of a dict *)
Variable str_dict : Dict → string.

Definition _generate_pattern_insight (signature : string)
    (entries : list LearningEntry.t) : result PatternInsight.t :=
  let frequency := length entries in
  let successful_outcomes := List.filter is_successful entries in
  success_rate ←
    (if (0 <? frequency)%nat then py_div (length successful_outcomes) frequency
     else Ok 0%Q);
  let agents :=
    elements (list_to_set (map LearningEntry.agent entries) : gset string) in
  let projects :=
    elements (list_to_set (map LearningEntry.project entries) : gset string) in
  let contexts := map LearningEntry.context entries in
  let recommendations := _extract_recommendations successful_outcomes in
  let pattern_id := Str.take 12 (sha256_hexdigest signature) in
  last_seen ← py_max (map LearningEntry.timestamp entries);
  Ok (PatternInsight.mk pattern_id (split_head signature) frequency
        success_rate contexts agents projects recommendations last_seen).

(** *** [analyze_patterns] *)

Definition microseconds_per_day : Z := 86400 * 1000000.

(** [if agent:] on an optional string. *)
Definition truthy (o : option string) : option string :=
  match o with
  | Some EmptyString => None
  | _ => o
  end.

Definition filter_field (field : LearningEntry.t → string) (o : option string)
    (data : list LearningEntry.t) : list LearningEntry.t :=
  match truthy o with
  | Some v => List.filter (fun e => String.eqb (field e) v) data
  | None => data
  end.

(** [datetime.min] and [datetime.max] (years 1 and 9999), and the largest
    magnitude of [timedelta(days=...)]. *)
Definition datetime_min : Z := -62135596800 * 1000000.
Definition datetime_max : Z := 253402300800 * 1000000 - 1.
Definition max_timedelta_days : Z := 999999999.

(** [now - datetime.timedelta(days=days_back)]: building the timedelta
    raises when the number of days is too large, the subtraction raises
    when the result is not a date of the years 1 to 9999. *)
Definition cutoff_date (now days_back : Z) : result Z :=
  if (Z.abs days_back <=? max_timedelta_days)%Z then
    let cutoff := (now - days_back * microseconds_per_day)%Z in
    if (datetime_min <=? cutoff)%Z && (cutoff <=? datetime_max)%Z
    then Ok cutoff else Raise OverflowError
  else Raise OverflowError.

(** The two filtering steps once the cutoff is known. *)
Definition entries_since (cutoff : Z) (agent pattern_type : option string)
    (learning_data : list LearningEntry.t) : list LearningEntry.t :=
  let in_range :=
    List.filter (fun e => (cutoff <=? LearningEntry.timestamp e)%Z)
                learning_data in
  filter_field LearningEntry.pattern_type pattern_type
    (filter_field LearningEntry.agent agent in_range).

(** The entries the grouping loop sees, for a cutoff the calendar has. *)
Definition filtered_data (now : Z) (agent pattern_type : option string)
    (days_back : Z) (learning_data : list LearningEntry.t)
  : list LearningEntry.t :=
  entries_since (now - days_back * microseconds_per_day)%Z agent pattern_type
    learning_data.

(** [(x.frequency, x.success_rate)] and the tuple order [a < b]. *)
Definition sort_key (x : PatternInsight.t) : nat * Q :=
  (PatternInsight.frequency x, PatternInsight.success_rate x).

Definition key_lt (a b : nat * Q) : bool :=
  (a.1 <? b.1)%nat || ((a.1 =? b.1)%nat && Qltb a.2 b.2).

(** [list.sort(key=..., reverse=True)] is stable: of two insights with
    equal keys the one met first stays first. *)
Fixpoint insert_desc (x : PatternInsight.t) (l : list PatternInsight.t)
  : list PatternInsight.t :=
  match l with
  | [] => [x]
  | y :: l' =>
      if key_lt (sort_key x) (sort_key y) then y :: insert_desc x l'
      else x :: l
  end.

Definition sort_desc (l : list PatternInsight.t) : list PatternInsight.t :=
  foldr insert_desc [] l.

Section WithTracker.

Variable self : LearningTracker.

(** The loop over [pattern_groups.items()]. *)
Fixpoint insights_loop (pattern_groups : list (string * list LearningEntry.t))
  : result (list PatternInsight.t) :=
  match pattern_groups with
  | [] => Ok []
  | (signature, entries) :: rest =>
      if (min_pattern_frequency self <=? Z.of_nat (length entries))%Z then
        insight ← _generate_pattern_insight signature entries;
        insights ← insights_loop rest;
        Ok (if Qle_bool (min_confidence_threshold self)
                 (PatternInsight.success_rate insight)
            then insight :: insights else insights)
      else insights_loop rest
  end.

Definition analyze_patterns (now : Z) (agent pattern_type : option string)
    (days_back : Z) (s : Store) : result (list PatternInsight.t) :=
  let learning_data := _load_json (learning_db s) [] in
  cutoff ← cutoff_date now days_back;
  let data := entries_since cutoff agent pattern_type learning_data in
  let pattern_groups := group_by _create_pattern_signature data in
  insights ← insights_loop pattern_groups;
  Ok (sort_desc insights).

(** *** [get_recommendations] *)

(** The loop [for insight in insights: if matches: extend]. *)
Fixpoint collect_recommendations (context : Dict)
    (insights : list PatternInsight.t) (recommendations : list string)
  : result (list string) :=
  match insights with
  | [] => Ok recommendations
  | insight :: rest =>
      matched ← _context_matches_pattern context
                  (PatternInsight.contexts insight);
      collect_recommendations context rest
        (if matched : bool
         then recommendations ++ PatternInsight.recommendations insight
         else recommendations)
  end.

Definition get_recommendations (now : Z) (agent : string) (context : Dict)
    (s : Store) : result (list string) :=
  insights ← analyze_patterns now (Some agent) None 30 s;
  recommendations ← collect_recommendations context insights [];
  Ok (take 5 (dict_fromkeys recommendations)).

(** *** [record_learning] *)

(** [examples[-5:]] *)
Definition last_five {A : Type} (l : list A) : list A :=
  drop (length l - 5) l.

(** The file is saved only when the update goes through; the exception
    of [insight['count'] += 1] on a record without that key leaves it
    as it was. *)
Definition _update_pattern_insights (entry : LearningEntry.t) (s : Store)
  : Store * result unit :=
  let insights := _load_json (insights_db s) ∅ in
  let pattern_key :=
    LearningEntry.agent entry +:+ "_" +:+ LearningEntry.pattern_type entry in
  let insights :=
    match insights !! pattern_key with
    | None =>
        <[pattern_key :=
            RollingRecord
              (Rolling.mk 0 0 (LearningEntry.timestamp entry) [])]> insights
    | Some _ => insights
    end in
  match insights !! pattern_key with
  | Some (RollingRecord insight) =>
      let count := S (Rolling.count insight) in
      let success_count :=
        if Qltb (7 # 10) (LearningEntry.confidence entry)
        then S (Rolling.success_count insight)
        else Rolling.success_count insight in
      let examples :=
        Rolling.examples insight
        ++ [Rolling.mk_example (LearningEntry.context entry)
              (LearningEntry.outcome entry) (LearningEntry.confidence entry)] in
      let examples :=
        if (5 <? length examples)%nat then last_five examples else examples in
      let insight :=
        Rolling.mk count success_count (LearningEntry.timestamp entry)
          examples in
      (save_insights_db (<[pattern_key := RollingRecord insight]> insights) s,
       Ok tt)
  | _ => (s, Raise KeyError)
  end.

(** [hash_content] and its digest prefix. *)
Definition entry_hash (timestamp : Z) (agent pattern_type : string)
    (context : Dict) (outcome : string) : string :=
  let hash_content :=
    isoformat timestamp +:+ agent +:+ pattern_type +:+ str_dict context
    +:+ outcome in
  Str.take 16 (sha256_hexdigest hash_content).

(** [now] is the reading of [datetime.datetime.now()]; [tags] is [None]
    or a list. *)
Definition record_learning (now : Z) (agent pattern_type : string)
    (context : Dict) (outcome : string) (confidence : Q)
    (tags : option (list string)) (s : Store) : Store * result string :=
  let timestamp := now in
  let hash_id := entry_hash timestamp agent pattern_type context outcome in
  let entry :=
    LearningEntry.mk timestamp agent (project_name self) pattern_type context
      outcome confidence (default [] tags) hash_id in
  let learning_data := _load_json (learning_db s) [] in
  let s := save_learning_db (learning_data ++ [entry]) s in
  match _update_pattern_insights entry s with
  | (s, Ok _) => (s, Ok hash_id)
  | (s, Raise e) => (s, Raise e)
  end.

(** *** [sync_with_global] *)

(** The body of the second loop of [_analyze_global_patterns]. *)
Fixpoint global_insights_loop
    (pattern_groups : list (string * list LearningEntry.t))
    (insights : list (string * GlobalInsight.t))
  : result (list (string * GlobalInsight.t)) :=
  match pattern_groups with
  | [] => Ok insights
  | (pattern_key, entries) :: rest =>
      if (5 <=? length entries)%nat then
        success_rate ←
          py_div
            (length (List.filter
                       (fun e => Qltb (7 # 10) (LearningEntry.confidence e))
                       entries))
            (length entries);
        let projects :=
          elements
            (list_to_set (map LearningEntry.project entries) : gset string) in
        global_insights_loop rest
          (dict_set insights pattern_key
             (GlobalInsight.mk (length entries) projects success_rate))
      else global_insights_loop rest insights
  end.

Definition global_key (entry : LearningEntry.t) : string :=
  LearningEntry.pattern_type entry +:+ "_" +:+ LearningEntry.agent entry.

Definition _analyze_global_patterns (global_data : list LearningEntry.t)
  : result (list (string * GlobalInsight.t)) :=
  global_insights_loop (group_by global_key global_data) [].

Definition _is_insight_relevant (insight : GlobalInsight.t)
    (project_name : string) : bool :=
  Qltb (8 # 10) (GlobalInsight.success_rate insight)
  && (2 <? length (GlobalInsight.projects insight))%nat.

Record SyncStats : Type := mkStats {
  uploaded : nat;
  downloaded : nat;
  total_global : nat;
  total_local : nat
}.

(** The merge loop: [project_insights] and [merged_count]. *)
Definition merge_step (acc : gmap string InsightRecord * nat)
    (item : string * GlobalInsight.t) : gmap string InsightRecord * nat :=
  if _is_insight_relevant item.2 (project_name self)
  then (<[item.1 := GlobalRecord item.2]> acc.1, S acc.2)
  else acc.

Definition sync_with_global (s : Store) : Store * result SyncStats :=
  let project_data := _load_json (learning_db s) [] in
  let global_data := _load_json (global_db s) [] in
  let existing_hashes : gset string :=
    list_to_set (map LearningEntry.hash_id global_data) in
  let new_entries :=
    List.filter
      (fun entry => bool_decide (LearningEntry.hash_id entry ∉ existing_hashes))
      project_data in
  let global_data := global_data ++ new_entries in
  let s := save_global_db global_data s in
  match _analyze_global_patterns global_data with
  | Raise e => (s, Raise e)
  | Ok global_insights =>
      let project_insights := _load_json (insights_db s) ∅ in
      let '(project_insights, merged_count) :=
        fold_left merge_step global_insights (project_insights, 0) in
      let s := save_insights_db project_insights s in
      (s, Ok (mkStats (length new_entries) merged_count
                (length global_data) (length project_data)))
  end.

End WithTracker.

End Tracker.

(** ** Definitions used to state the properties *)

  (** The quotient [len(successful_outcomes) / frequency] of a bucket. *)
Definition bucket_success_rate (entries : list LearningEntry.t) : Q :=
    Z.of_nat (length (List.filter is_successful entries))
    # Pos.of_nat (length entries).

(** The buckets in words: one per distinct key, in the order the keys first
    appear, each holding the entries with that key in stored order. *)
Definition buckets_of {A : Type} (key : A → string) (data : list A)
  : list (string * list A) :=
  map (fun k => (k, List.filter (fun x => String.eqb (key x) k) data))
      (dict_fromkeys (map key data)).

(** A bucket that [analyze_patterns] keeps: enough entries and a success
    rate at or above the threshold. *)
Definition qualifies (self : LearningTracker)
    (bucket : string * list LearningEntry.t) : bool :=
  (min_pattern_frequency self <=? Z.of_nat (length bucket.2))%Z
  && Qle_bool (min_confidence_threshold self) (bucket_success_rate bucket.2).

(** Descending order on the pairs (frequency, success_rate), frequency
    first: [a] may stand before [b]. *)
Definition key_ge (a b : nat * Q) : Prop :=
  (b.1 < a.1)%nat ∨ (a.1 = b.1 ∧ (b.2 <= a.2)%Q).

Definition ranked_before (a b : PatternInsight.t) : Prop :=
  key_ge (sort_key a) (sort_key b).

(** Two insights that the sort key does not tell apart. *)
Definition same_key (a b : PatternInsight.t) : bool :=
  (PatternInsight.frequency a =? PatternInsight.frequency b)%nat
  && Qeq_bool (PatternInsight.success_rate a) (PatternInsight.success_rate b).

(** The cutoff of a call exists: the days fit a [timedelta] and the
    cutoff is a date of the years 1 to 9999. *)
Definition representable_cutoff (now days_back : Z) : Prop :=
  (Z.abs days_back ≤ max_timedelta_days)%Z
  ∧ (datetime_min ≤ now - days_back * microseconds_per_day)%Z
  ∧ (now - days_back * microseconds_per_day ≤ datetime_max)%Z.

(** Two insights that differ at most in the order of the lists built from
    sets. *)
Definition same_insight (a b : PatternInsight.t) : Prop :=
  PatternInsight.pattern_id a = PatternInsight.pattern_id b
  ∧ PatternInsight.pattern_type a = PatternInsight.pattern_type b
  ∧ PatternInsight.frequency a = PatternInsight.frequency b
  ∧ PatternInsight.success_rate a = PatternInsight.success_rate b
  ∧ PatternInsight.contexts a = PatternInsight.contexts b
  ∧ PatternInsight.agents a ≡ₚ PatternInsight.agents b
  ∧ PatternInsight.projects a ≡ₚ PatternInsight.projects b
  ∧ PatternInsight.recommendations a ≡ₚ PatternInsight.recommendations b
  ∧ PatternInsight.last_seen a = PatternInsight.last_seen b.

(** Two records of the insight index that differ at most in the order of
    the projects of a global record. *)
Definition same_record (a b : InsightRecord) : Prop :=
  match a, b with
  | RollingRecord r1, RollingRecord r2 => r1 = r2
  | GlobalRecord g1, GlobalRecord g2 =>
      GlobalInsight.frequency g1 = GlobalInsight.frequency g2
      ∧ GlobalInsight.success_rate g1 = GlobalInsight.success_rate g2
      ∧ GlobalInsight.projects g1 ≡ₚ GlobalInsight.projects g2
  | _, _ => False
  end.

Definition same_index (m1 m2 : gmap string InsightRecord) : Prop :=
  ∀ key,
    match m1 !! key, m2 !! key with
    | Some a, Some b => same_record a b
    | None, None => True
    | _, _ => False
    end.

(** The candidate insight of a group of the global log. *)
Definition global_insight_of (entries : list LearningEntry.t) : GlobalInsight.t :=
  GlobalInsight.mk (length entries)
    (elements (list_to_set (map LearningEntry.project entries) : gset string))
    (Z.of_nat (length (List.filter
                         (fun e => Qltb (7 # 10) (LearningEntry.confidence e))
                         entries))
     # Pos.of_nat (length entries)).

(** The entries of the global log filed under one key. *)
Definition global_group (key : string) (global_data : list LearningEntry.t)
  : list LearningEntry.t :=
  List.filter (fun e => String.eqb (global_key e) key) global_data.

(** The local entries [sync_with_global] uploads. *)
Definition absent_from (global_data : list LearningEntry.t)
    (entry : LearningEntry.t) : bool :=
  bool_decide (LearningEntry.hash_id entry
               ∉ map LearningEntry.hash_id global_data).

(** An insight one of whose stored contexts reaches the 0.6 ratio. *)
Definition insight_matches (context : Dict) (insight : PatternInsight.t) : bool :=
  existsb (fun pc => bool_decide
                       (3 * length pc ≤ 5 * count_matches context pc)%nat)
    (PatternInsight.contexts insight).

(** The candidate insights of the global log: one per group of at least
    five entries, in the order of the groups. *)
Definition global_candidates (global_data : list LearningEntry.t)
  : list (string * GlobalInsight.t) :=
  map (fun bucket => (bucket.1, global_insight_of bucket.2))
    (List.filter (fun bucket => (5 <=? length bucket.2)%nat)
       (buckets_of global_key global_data)).

(** The candidates the tracker of a project imports. *)
Definition relevant_here (self : LearningTracker)
    (item : string * GlobalInsight.t) : bool :=
  _is_insight_relevant item.2 (project_name self).

(** ** Sample data *)

(** Three of five keys match, two of them only up to case. *)
Definition boundary_query : Dict :=
  [("file_type", VStr "JavaScript"); ("line", VInt 3); ("strict", VBool true)].
Definition boundary_pattern : Dict :=
  [("file_type", VStr "javascript"); ("line", VStr "3"); ("strict", VStr "TRUE");
   ("error_type", VNone); ("module", VStr "core")].

(** A clock reading of November 2026. *)
Definition sample_now : Z := 1793750400 * 1000000.

(** Stand-ins for the three library functions, used where a property is run
    on concrete data. *)
Definition sample_digest (s : string) : string := s.
Definition sample_isoformat (t : Z) : string := pretty t.
Definition sample_str_dict (d : Dict) : string :=
  Str.join "," (map (fun item => item.1 +:+ ":" +:+ py_str item.2) d).

Definition sample_entry (timestamp : Z) (context : Dict) (outcome : string)
    (confidence : Q) (hash_id : string) : LearningEntry.t :=
  LearningEntry.mk timestamp "sherlock" "demo" "bug_fix" context outcome
    confidence [] hash_id.

(** Three events for agent "sherlock", category "bug_fix", confidence 0.9,
    outcomes mentioning a test. *)
Definition sample_store : Store :=
  mkStore
    (Some [sample_entry 100 [("file_type", VStr "javascript")]
             "Added a test for the parser" (9 # 10) "h1";
           sample_entry 200 [("file_type", VStr "python")]
             "Test now passes" (9 # 10) "h2";
           sample_entry 300 [("file_type", VStr "javascript")]
             "Regression test written" (9 # 10) "h3"])
    (Some ∅) None.

(** The same events recorded without any context. *)
Definition empty_context_store : Store :=
  mkStore
    (Some [sample_entry 100 [] "Added a test for the parser" (9 # 10) "h1";
           sample_entry 200 [] "Test now passes" (9 # 10) "h2";
           sample_entry 300 [] "Regression test written" (9 # 10) "h3"])
    (Some ∅) None.

Definition project_entry (project : string) (timestamp : Z) (hash_id : string)
  : LearningEntry.t :=
  LearningEntry.mk timestamp "sherlock" project "bug_fix"
    [("file_type", VStr "javascript")] "Fixed it" (9 # 10) [] hash_id.

(** Five local events, two of which the global log already holds by id,
    next to two events of other projects. *)
Definition sync_store : Store :=
  mkStore
    (Some [project_entry "demo" 1 "h1"; project_entry "demo" 2 "h2";
           project_entry "demo" 3 "h3"; project_entry "demo" 4 "h4";
           project_entry "demo" 5 "h5"])
    (Some ∅)
    (Some [project_entry "alpha" 6 "g1"; project_entry "demo" 2 "h2";
           project_entry "beta" 7 "g2"; project_entry "demo" 4 "h4"]).

(** A bucket of three: one success by its outcome text only, one by its
    confidence only, one by neither. *)
Definition mixed_bucket : list LearningEntry.t :=
  [sample_entry 100 [("file_type", VStr "javascript")]
     "SUCCESS after a refactor" (1 # 10) "m1";
   sample_entry 200 [("file_type", VStr "javascript")]
     "patched" (9 # 10) "m2";
   sample_entry 300 [("file_type", VStr "javascript")]
     "gave up" (7 # 10) "m3"].

(** A fresh installation in which three events were recorded without
    context, as [record_learning] leaves it. *)
Definition recorded_without_context (sha256_hexdigest : string → string)
    (isoformat : Z → string) (str_dict : Dict → string) : Store :=
  let record (now : Z) (outcome : string) (s : Store) : Store :=
    (record_learning sha256_hexdigest isoformat str_dict (init "demo") now
       "sherlock" "bug_fix" [] outcome (9 # 10) None s).1 in
  record 300%Z "Regression test written"
    (record 200%Z "Test now passes"
       (record 100%Z "Added a test for the parser"
          (initialize_storage (mkStore None None None)))).

(** ** Definitions used by the further properties *)

(** The four texts [_extract_recommendations] can append, in source order. *)
Definition recommendation_texts : list string :=
  ["Consider refactoring similar code patterns";
   "Add comprehensive tests for this pattern";
   "Monitor performance impact of similar changes";
   "Document this pattern for future reference"].

(** Each trigger word of [_extract_recommendations] with its text. *)
Definition recommendation_triggers : list (string * string) :=
  [("refactor", "Consider refactoring similar code patterns");
   ("test", "Add comprehensive tests for this pattern");
   ("performance", "Monitor performance impact of similar changes");
   ("documentation", "Document this pattern for future reference")].

(** The key [_update_pattern_insights] files an entry under. *)
Definition rolling_key (entry : LearningEntry.t) : string :=
  LearningEntry.agent entry +:+ "_" +:+ LearningEntry.pattern_type entry.

Definition example_of (entry : LearningEntry.t) : Rolling.example :=
  Rolling.mk_example (LearningEntry.context entry) (LearningEntry.outcome entry)
    (LearningEntry.confidence entry).

(** The rolling record that summarises a run of entries filed under one
    key: how many, how many with confidence above 0.7, the timestamp of the
    last one, the examples of the last five. *)
Definition rolling_of (entries : list LearningEntry.t) : Rolling.t :=
  Rolling.mk (length entries)
    (length (List.filter (fun e => Qltb (7 # 10) (LearningEntry.confidence e))
               entries))
    (List.last (map LearningEntry.timestamp entries) 0%Z)
    (last_five (map example_of entries)).

(** The record [_update_pattern_insights] writes back, from the record it
    found (or just created) and the entry. *)
Definition rolling_update (insight : Rolling.t) (entry : LearningEntry.t)
  : Rolling.t :=
  let examples := Rolling.examples insight ++ [example_of entry] in
  Rolling.mk (S (Rolling.count insight))
    (if Qltb (7 # 10) (LearningEntry.confidence entry)
     then S (Rolling.success_count insight)
     else Rolling.success_count insight)
    (LearningEntry.timestamp entry)
    (if (5 <? length examples)%nat then last_five examples else examples).

(** The insight index is the summary of the event log, key by key. *)
Definition index_tracks_log (s : Store) : Prop :=
  ∃ insights,
    insights_db s = Some insights
    ∧ ∀ key,
        insights !! key =
        match List.filter (fun e => String.eqb (rolling_key e) key)
                (_load_json (learning_db s) []) with
        | [] => None
        | entries => Some (RollingRecord (rolling_of entries))
        end.

(** The arguments of one [record_learning] call, with the clock reading. *)
Record Call : Type := mkCall {
  call_now : Z;
  call_agent : string;
  call_pattern_type : string;
  call_context : Dict;
  call_outcome : string;
  call_confidence : Q;
  call_tags : option (list string)
}.

Section Calls.

Variable sha256_hexdigest : string → string.
Variable isoformat : Z → string.
Variable str_dict : Dict → string.
Variable self : LearningTracker.

(** The entry a call builds. *)
Definition entry_of (c : Call) : LearningEntry.t :=
  LearningEntry.mk (call_now c) (call_agent c) (project_name self)
    (call_pattern_type c) (call_context c) (call_outcome c) (call_confidence c)
    (default [] (call_tags c))
    (entry_hash sha256_hexdigest isoformat str_dict (call_now c) (call_agent c)
       (call_pattern_type c) (call_context c) (call_outcome c)).

Definition record_call (c : Call) (s : Store) : Store * result string :=
  record_learning sha256_hexdigest isoformat str_dict self (call_now c)
    (call_agent c) (call_pattern_type c) (call_context c) (call_outcome c)
    (call_confidence c) (call_tags c) s.

(** A script that makes the calls one after the other and collects the
    ids; an exception ends it. *)
Fixpoint record_all (calls : list Call) (s : Store)
  : Store * result (list string) :=
  match calls with
  | [] => (s, Ok [])
  | c :: rest =>
      match record_call c s with
      | (s, Raise e) => (s, Raise e)
      | (s, Ok id) =>
          match record_all rest s with
          | (s, Raise e) => (s, Raise e)
          | (s, Ok ids) => (s, Ok (id :: ids))
          end
      end
  end.

End Calls.

(** A store as a fresh installation has it after [__init__]. *)
Definition fresh_store : Store := initialize_storage (mkStore None None None).

(** The frequencies of a list of insights, added up. *)
Definition total_frequency (insights : list PatternInsight.t) : nat :=
  foldr (fun insight n => (PatternInsight.frequency insight + n)%nat) 0%nat
    insights.

(** The sizes of a list of buckets, added up. *)
Definition bucket_total {A : Type} (groups : list (string * list A)) : nat :=
  foldr (fun bucket n => (length bucket.2 + n)%nat) 0%nat groups.

(** A query agrees with a pattern context on a key: it has the key, with
    the same text up to case. *)
Definition agrees_on (context : Dict) (item : string * PyVal) : Prop :=
  ∃ v, dict_get context item.1 = Some v
       ∧ Str.lower (py_str v) = Str.lower (py_str item.2).

Definition qa_entry (project : string) (timestamp : Z) (hash_id : string)
  : LearningEntry.t :=
  LearningEntry.mk timestamp "qa" project "qa" [("suite", VStr "smoke")]
    "Passed" (9 # 10) [] hash_id.

(** A global log in which agent "qa" has five events of category "qa"
    from three projects. *)
Definition qa_store : Store :=
  mkStore (Some [qa_entry "demo" 1 "q1"]) (Some ∅)
    (Some [qa_entry "alpha" 2 "q2"; qa_entry "alpha" 3 "q3";
           qa_entry "beta" 4 "q4"; qa_entry "beta" 5 "q5"]).

Definition sample_calls : list Call :=
  [mkCall 100 "sherlock" "bug_fix" [("file_type", VStr "javascript")]
     "Added a test" (9 # 10) None;
   mkCall 200 "edison" "refactor" [] "Refactor done" (5 # 10) (Some ["x"]);
   mkCall 300 "sherlock" "bug_fix" [("file_type", VStr "python")]
     "Test passes" (6 # 10) None].

(** * Properties *)

(** ** Strings *)

Lemma append_cons (c : ascii) (a b : string) :
  String c a +:+ b = String c (a +:+ b).
Proof. reflexivity. Qed.

Lemma prefix_app (needle s : string) :
  String.prefix needle s = true ↔ ∃ post, s = needle +:+ post.
Proof.
  revert s. induction needle as [|c needle IH]; intros s.
  - split; [intros _; by exists s | by destruct s].
  - setoid_rewrite append_cons. destruct s as [|d s]; cbn.
    + split; [done | intros [post H]; discriminate].
    + destruct (ascii_dec c d) as [->|Hne].
      * rewrite IH. split; intros [post H]; exists post; congruence.
      * split; [done | intros [post H]; congruence].
Qed.

(** [needle in s] holds exactly when [s] splits around [needle]. *)
Lemma contains_spec (needle s : string) :
  Str.contains needle s = true ↔ ∃ pre post, s = pre +:+ needle +:+ post.
Proof.
  induction s as [|c s IH]; cbn [Str.contains].
  - rewrite orb_false_r, prefix_app. split.
    + intros [post H]. by exists EmptyString, post.
    + intros ([|d pre] & post & H); [by exists post | discriminate].
  - rewrite orb_true_iff, prefix_app, IH. split.
    + intros [[post H] | (pre & post & H)].
      * by exists EmptyString, post.
      * exists (String c pre), post. by rewrite append_cons, H.
    + intros ([|d pre] & post & H).
      * left. by exists post.
      * right. exists pre, post. rewrite append_cons in H. congruence.
Qed.

Lemma split_nonempty (sep : ascii) (s : string) : Str.split sep s ≠ [].
Proof.
  induction s as [|c s IH]; simpl; [done |].
  destruct (Ascii.eqb c sep); [done |]. by destruct (Str.split sep s).
Qed.

(** The first piece of a split ignores whatever follows a separator. *)
Lemma split_head_app (a b : string) :
  split_head (a +:+ "_" +:+ b) = split_head a.
Proof.
  unfold split_head. induction a as [|c a IH]; [done |].
  rewrite append_cons. cbn [Str.split].
  destruct (Ascii.eqb c "_"); [done |].
  pose proof (split_nonempty "_" a) as Ha.
  pose proof (split_nonempty "_" (a +:+ "_" +:+ b)) as Hab.
  destruct (Str.split "_" a), (Str.split "_" (a +:+ "_" +:+ b));
    simpl in *; congruence.
Qed.

Lemma contains_underscore_cons (c : ascii) (s : string) :
  Str.contains "_" (String c s) = Ascii.eqb "_" c || Str.contains "_" s.
Proof.
  cbn [Str.contains]. f_equal.
  change (String.prefix "_" (String c s))
    with (if ascii_dec "_" c then String.prefix "" s else false).
  destruct (ascii_dec "_" c) as [<-|Hne].
  - rewrite Ascii.eqb_refl. by destruct s.
  - by apply Ascii.eqb_neq in Hne as ->.
Qed.

(** The first piece is the whole text exactly when there is no separator. *)
Lemma split_head_id (s : string) :
  split_head s = s ↔ Str.contains "_" s = false.
Proof.
  unfold split_head. induction s as [|c s IH]; [done |].
  rewrite contains_underscore_cons. cbn [Str.split].
  rewrite (Ascii.eqb_sym "_" c).
  destruct (Ascii.eqb c "_") eqn:Hc; simpl; [done |].
  pose proof (split_nonempty "_" s) as Hs.
  destruct (Str.split "_" s) as [|p ps] eqn:Hsplit; [done |].
  simpl in *. rewrite <- IH. split; congruence.
Qed.

(** The first piece holds no separator. *)
Lemma split_head_clean (s : string) : Str.contains "_" (split_head s) = false.
Proof.
  unfold split_head. induction s as [|c s IH]; [done |].
  cbn [Str.split]. destruct (Ascii.eqb c "_") eqn:Hc; [done |].
  pose proof (split_nonempty "_" s) as Hs.
  destruct (Str.split "_" s) as [|p ps] eqn:Hsplit; [done |].
  cbn [hd] in *. rewrite contains_underscore_cons, IH.
  by rewrite Ascii.eqb_sym, Hc.
Qed.

(** ** Quotients of lengths *)

Lemma Zpos_of_nat (n : nat) : n ≠ 0%nat → Z.pos (Pos.of_nat n) = Z.of_nat n.
Proof. intros. lia. Qed.

Lemma py_div_ok (a b : nat) :
  b ≠ 0%nat → py_div a b = Ok (Z.of_nat a # Pos.of_nat b).
Proof. by destruct b. Qed.

Lemma Qle_bool_quotient (p : Z) (q : positive) (a b : nat) :
  b ≠ 0%nat →
  Qle_bool (p # q) (Z.of_nat a # Pos.of_nat b) = true
  ↔ (p * Z.of_nat b ≤ Z.of_nat a * Z.pos q)%Z.
Proof.
  intros Hb. rewrite Qle_bool_iff. unfold Qle. simpl.
  by rewrite Zpos_of_nat.
Qed.

Lemma Qltb_lt (a b : Q) : Qltb a b = true ↔ (a < b)%Q.
Proof.
  unfold Qltb. rewrite negb_true_iff, <- not_true_iff_false, Qle_bool_iff.
  split; [apply Qnot_le_lt | apply Qlt_not_le].
Qed.

(** ** Context matching *)

(** What [_context_matches_pattern] does with its first pattern context when
    that one has keys. *)
Lemma context_match_cons (context pattern_context : Dict) (rest : list Dict) :
  pattern_context ≠ [] →
  _context_matches_pattern context (pattern_context :: rest) =
  if bool_decide (3 * length pattern_context
                  ≤ 5 * count_matches context pattern_context)%nat
  then Ok true else _context_matches_pattern context rest.
Proof.
  intros Hne. cbn [_context_matches_pattern].
  assert (length pattern_context ≠ 0%nat) as Hlen by by destruct pattern_context.
  rewrite py_div_ok by done. cbn [mbind result_bind].
  pose proof (Qle_bool_quotient 6 10 (count_matches context pattern_context)
                (length pattern_context) Hlen) as Hq.
  destruct (Qle_bool _ _); case_bool_decide; try done.
  - destruct Hq as [Hq _]. specialize (Hq eq_refl). lia.
  - destruct Hq as [_ Hq]. discriminate Hq. lia.
Qed.

(** C1.  The claim asks that a pattern context without keys counts as a
    failed match and that no division by zero happens.  The function does
    the opposite: when the pattern context it looks at has no keys,
    [matches / total_keys] divides by zero and the call raises
    [ZeroDivisionError], whatever the query context and whatever follows in
    the list. *)
Theorem context_match_empty_pattern_raises (context : Dict) (rest : list Dict) :
  _context_matches_pattern context ([] :: rest) = Raise ZeroDivisionError.
Proof. reflexivity. Qed.

(** The same happens when pattern contexts that do not match come first. *)
Lemma context_match_reaches_empty (context : Dict) (before rest : list Dict) :
  Forall (fun pc => pc ≠ [] ∧
                    (5 * count_matches context pc < 3 * length pc)%nat) before →
  _context_matches_pattern context (before ++ [] :: rest)
  = Raise ZeroDivisionError.
Proof.
  induction 1 as [|pc before [Hne Hlt] _ IH]; [done |].
  rewrite <- app_comm_cons, context_match_cons by done.
  case_bool_decide; [lia | done].
Qed.

(** Without empty pattern contexts the call returns, and says whether some
    pattern context reaches the threshold. *)
Lemma context_match_total (context : Dict) (pattern_contexts : list Dict) :
  Forall (fun pc => pc ≠ []) pattern_contexts →
  _context_matches_pattern context pattern_contexts =
  Ok (existsb (fun pc => bool_decide
                           (3 * length pc ≤ 5 * count_matches context pc)%nat)
        pattern_contexts).
Proof.
  induction 1 as [|pc pcs Hne _ IH]; [done |].
  rewrite context_match_cons by done. cbn [existsb].
  by case_bool_decide.
Qed.

(** C7.  For a stored pattern context with at least one key, the decision
    sits at the ratio 0.6 exactly: when the matched keys are exactly 60% of
    the keys (5 * matches = 3 * total), or more, the context is accepted;
    when they are strictly fewer the context is rejected, so the call goes
    on with the remaining pattern contexts and answers [False] when there
    are none. *)
Theorem context_match_boundary (context pattern_context : Dict)
    (rest : list Dict) :
  pattern_context ≠ [] →
  let matches := count_matches context pattern_context in
  let total_keys := length pattern_context in
  ((5 * matches = 3 * total_keys)%nat →
     _context_matches_pattern context (pattern_context :: rest) = Ok true)
  ∧ ((3 * total_keys ≤ 5 * matches)%nat →
     _context_matches_pattern context (pattern_context :: rest) = Ok true)
  ∧ ((5 * matches < 3 * total_keys)%nat →
     _context_matches_pattern context (pattern_context :: rest)
     = _context_matches_pattern context rest)
  ∧ ((5 * matches < 3 * total_keys)%nat →
     _context_matches_pattern context [pattern_context] = Ok false).
Proof.
  intros Hne matches total_keys.
  repeat split; intros H; rewrite context_match_cons by done;
    case_bool_decide; try done; lia.
Qed.

Lemma context_match_boundary_witness :
  boundary_pattern ≠ []
  ∧ count_matches boundary_query boundary_pattern = 3%nat
  ∧ _context_matches_pattern boundary_query [boundary_pattern] = Ok true
  ∧ _context_matches_pattern boundary_query [drop 1 boundary_pattern] = Ok false.
Proof.
  split; [done |]. split; [reflexivity |]. split.
  - apply (context_match_boundary boundary_query boundary_pattern []);
      [done | reflexivity].
  - apply (context_match_boundary boundary_query (drop 1 boundary_pattern) []);
      [done | vm_compute; lia].
Defined.

(** ** Scoring a bucket *)

Section Scoring.

Variable sha256_hexdigest : string → string.

(** On a bucket that holds an entry every step goes through. *)
Lemma generate_nonempty (signature : string) (entries : list LearningEntry.t) :
  entries ≠ [] →
  ∃ insight,
    _generate_pattern_insight sha256_hexdigest signature entries = Ok insight
    ∧ PatternInsight.pattern_type insight = split_head signature
    ∧ PatternInsight.frequency insight = length entries
    ∧ PatternInsight.success_rate insight = bucket_success_rate entries
    ∧ PatternInsight.contexts insight = map LearningEntry.context entries
    ∧ PatternInsight.recommendations insight
      = _extract_recommendations (List.filter is_successful entries).
Proof.
  destruct entries as [|e entries]; [done | intros _].
  eexists. split; [reflexivity |]. by repeat split.
Qed.

(** [max()] of no timestamps: an empty bucket has no insight. *)
Lemma generate_empty (signature : string) :
  _generate_pattern_insight sha256_hexdigest signature [] = Raise ValueError.
Proof. reflexivity. Qed.

Lemma filter_length_le {A : Type} (f : A → bool) (l : list A) :
  (length (List.filter f l) ≤ length l)%nat.
Proof. induction l as [|x l IH]; simpl; [lia |]. destruct (f x); simpl; lia. Qed.

Lemma bucket_success_rate_bounds (entries : list LearningEntry.t) :
  entries ≠ [] →
  (0 <= bucket_success_rate entries)%Q ∧ (bucket_success_rate entries <= 1)%Q.
Proof.
  intros Hne. unfold bucket_success_rate, Qle. cbn [Qnum Qden].
  pose proof (filter_length_le is_successful entries).
  assert (length entries ≠ 0%nat) by by destruct entries.
  rewrite Zpos_of_nat by done. lia.
Qed.

(** The test applied to every entry of a bucket, in words. *)
Lemma is_successful_spec (e : LearningEntry.t) :
  is_successful e = true
  ↔ (∃ pre post,
       Str.lower (LearningEntry.outcome e) = pre +:+ "success" +:+ post)
    ∨ (7 # 10 < LearningEntry.confidence e)%Q.
Proof.
  unfold is_successful. by rewrite orb_true_iff, contains_spec, Qltb_lt.
Qed.

(** C3.  In a bucket (a group holds at least one event) an event counts as
    successful exactly when its lower-cased outcome contains the token
    "success" or its confidence is strictly above 0.7, either one being
    enough, and the insight's success_rate is the number of those events
    divided by the size of the bucket. *)
Theorem success_rate_counts_successful (signature : string)
    (entries : list LearningEntry.t) :
  entries ≠ [] →
  ∃ insight,
    _generate_pattern_insight sha256_hexdigest signature entries = Ok insight
    ∧ (∀ e, is_successful e = true
            ↔ (∃ pre post,
                 Str.lower (LearningEntry.outcome e)
                 = pre +:+ "success" +:+ post)
              ∨ (7 # 10 < LearningEntry.confidence e)%Q)
    ∧ (PatternInsight.success_rate insight
       == inject_Z (Z.of_nat (length (List.filter is_successful entries)))
          / inject_Z (Z.of_nat (length entries)))%Q.
Proof.
  intros Hne.
  destruct (generate_nonempty signature entries Hne)
    as (insight & Hrun & _ & _ & Hrate & _).
  exists insight. split; [done |]. split; [apply is_successful_spec |].
  rewrite Hrate. unfold bucket_success_rate.
  rewrite Qmake_Qdiv, Zpos_of_nat; [reflexivity |]. by destruct entries.
Qed.

(** C8.  For a non-empty bucket the insight has a success_rate between 0
    and 1, and its frequency is the size of the bucket, which is also the
    length of its contexts list. *)
Theorem insight_rate_and_frequency (signature : string)
    (entries : list LearningEntry.t) :
  entries ≠ [] →
  ∃ insight,
    _generate_pattern_insight sha256_hexdigest signature entries = Ok insight
    ∧ (0 <= PatternInsight.success_rate insight)%Q
    ∧ (PatternInsight.success_rate insight <= 1)%Q
    ∧ PatternInsight.frequency insight = length entries
    ∧ PatternInsight.frequency insight
      = length (PatternInsight.contexts insight).
Proof.
  intros Hne.
  destruct (generate_nonempty signature entries Hne)
    as (insight & Hrun & _ & Hfreq & Hrate & Hctx & _).
  exists insight. rewrite Hrate, Hfreq, Hctx, length_map.
  pose proof (bucket_success_rate_bounds entries Hne) as [? ?].
  by repeat split.
Qed.

(** The signature starts with the category and an underscore. *)
Lemma signature_head (entry : LearningEntry.t) :
  split_head (_create_pattern_signature entry)
  = split_head (LearningEntry.pattern_type entry).
Proof. unfold _create_pattern_signature. apply split_head_app. Qed.

(** C10.  The insight generated for a bucket carries as pattern_type the
    text of the grouping signature before its first underscore, which is
    the text of the events' category before its first underscore: a piece
    without underscore, equal to the category exactly when the category
    has no underscore.  For the category "bug_fix" it is "bug". *)
Theorem insight_pattern_type_is_signature_head (entry : LearningEntry.t)
    (entries : list LearningEntry.t) :
  entries ≠ [] →
  ∃ insight,
    _generate_pattern_insight sha256_hexdigest
      (_create_pattern_signature entry) entries = Ok insight
    ∧ PatternInsight.pattern_type insight
      = split_head (_create_pattern_signature entry)
    ∧ PatternInsight.pattern_type insight
      = split_head (LearningEntry.pattern_type entry)
    ∧ Str.contains "_" (PatternInsight.pattern_type insight) = false
    ∧ (PatternInsight.pattern_type insight = LearningEntry.pattern_type entry
       ↔ Str.contains "_" (LearningEntry.pattern_type entry) = false)
    ∧ (LearningEntry.pattern_type entry = "bug_fix" →
       PatternInsight.pattern_type insight = "bug").
Proof.
  intros Hne.
  destruct (generate_nonempty (_create_pattern_signature entry) entries Hne)
    as (insight & Hrun & Htype & _).
  exists insight. rewrite Htype, signature_head.
  repeat split; auto using split_head_clean.
  - by intros ->%split_head_id.
  - by intros ->%split_head_id.
  - by intros ->.
Qed.

End Scoring.

Lemma success_rate_counts_successful_witness :
  mixed_bucket ≠ []
  ∧ ∃ insight,
      _generate_pattern_insight sample_digest "bug_fix_file_type" mixed_bucket
      = Ok insight
      ∧ (PatternInsight.success_rate insight == 2 # 3)%Q.
Proof.
  split; [done |].
  destruct (success_rate_counts_successful sample_digest "bug_fix_file_type"
              mixed_bucket) as (insight & Hrun & _ & Hrate); [done |].
  exists insight. split; [exact Hrun |]. rewrite Hrate. reflexivity.
Defined.

Lemma insight_rate_and_frequency_witness :
  mixed_bucket ≠ []
  ∧ ∃ insight,
      _generate_pattern_insight sample_digest "bug_fix_file_type" mixed_bucket
      = Ok insight
      ∧ PatternInsight.frequency insight = 3%nat
      ∧ length (PatternInsight.contexts insight) = 3%nat.
Proof.
  split; [done |].
  destruct (insight_rate_and_frequency sample_digest "bug_fix_file_type"
              mixed_bucket) as (insight & Hrun & _ & _ & Hfreq & Hctx); [done |].
  exists insight. split; [exact Hrun |]. rewrite <- Hctx. by rewrite Hfreq.
Defined.

Lemma insight_pattern_type_is_signature_head_witness :
  mixed_bucket ≠ []
  ∧ _create_pattern_signature (sample_entry 100 [("file_type", VStr "javascript")]
                                 "patched" (9 # 10) "m2")
    = "bug_fix_file_type"
  ∧ ∃ insight,
      _generate_pattern_insight sample_digest "bug_fix_file_type" mixed_bucket
      = Ok insight
      ∧ PatternInsight.pattern_type insight = "bug".
Proof.
  split; [done |]. split; [reflexivity |].
  destruct (insight_pattern_type_is_signature_head sample_digest
              (sample_entry 100 [("file_type", VStr "javascript")] "patched"
                 (9 # 10) "m2") mixed_bucket)
    as (insight & Hrun & _ & _ & _ & _ & Hbug); [done |].
  exists insight. split; [exact Hrun |]. by apply Hbug.
Defined.

(** ** Ordered dictionaries *)

Lemma dict_fromkeys_snoc (l : list string) (x : string) :
  dict_fromkeys (l ++ [x]) =
  if decide (x ∈ dict_fromkeys l) then dict_fromkeys l
  else dict_fromkeys l ++ [x].
Proof. unfold dict_fromkeys. by rewrite fold_left_app. Qed.

Lemma elem_of_dict_fromkeys (l : list string) (x : string) :
  x ∈ dict_fromkeys l ↔ x ∈ l.
Proof.
  revert x. induction l as [|y l IH] using rev_ind; intros x; [done |].
  rewrite dict_fromkeys_snoc, elem_of_app, list_elem_of_singleton.
  case_decide as Hin.
  - rewrite IH. split; [tauto |]. intros [? | ->]; [done | by apply IH].
  - rewrite elem_of_app, list_elem_of_singleton, IH. tauto.
Qed.

Lemma NoDup_dict_fromkeys (l : list string) : NoDup (dict_fromkeys l).
Proof.
  induction l as [|y l IH] using rev_ind; [constructor |].
  rewrite dict_fromkeys_snoc. case_decide; [done |].
  apply NoDup_app. split_and!; [done | | apply NoDup_singleton].
  intros z Hz ->%list_elem_of_singleton. done.
Qed.

(** Appending to a dictionary of lists whose keys are pairwise distinct. *)
Lemma groups_append_map {A : Type} (f : string → list A) (keys : list string)
    (key : string) (x : A) :
  NoDup keys →
  groups_append (map (fun k => (k, f k)) keys) key x =
  map (fun k => (k, f k ++ if String.eqb k key then [x] else [])) keys
  ++ (if decide (key ∈ keys) then [] else [(key, [x])]).
Proof.
  induction 1 as [|k keys Hk Hnodup IH]; [done |].
  cbn [map groups_append app]. destruct (String.eqb_spec k key) as [->|Hne].
  - rewrite decide_True by (apply elem_of_cons; by left).
    rewrite app_nil_r. f_equal.
    apply map_ext_in. intros k' Hin%list_elem_of_In.
    destruct (String.eqb_spec k' key) as [->|]; [done |]. by rewrite app_nil_r.
  - rewrite IH, app_nil_r. f_equal. f_equal.
    destruct (decide (key ∈ keys)) as [Hin|Hin].
    + rewrite decide_True; [done | apply elem_of_cons; by right].
    + rewrite decide_False; [done |]. rewrite elem_of_cons. by intros [-> | ?].
Qed.

Lemma filter_snoc {A : Type} (f : A → bool) (l : list A) (x : A) :
  List.filter f (l ++ [x]) = List.filter f l ++ (if f x then [x] else []).
Proof. rewrite List.filter_app. simpl. by destruct (f x). Qed.

Lemma filter_none {A : Type} (f : A → bool) (l : list A) :
  (∀ x, x ∈ l → f x = false) → List.filter f l = [].
Proof.
  induction l as [|y l IH]; intros H; [done |]. simpl.
  rewrite H by set_solver. apply IH. set_solver.
Qed.

Lemma buckets_of_snoc {A : Type} (key : A → string) (data : list A) (x : A) :
  groups_append (buckets_of key data) (key x) x = buckets_of key (data ++ [x]).
Proof.
  unfold buckets_of.
  rewrite groups_append_map by apply NoDup_dict_fromkeys.
  rewrite map_app. cbn [map]. rewrite dict_fromkeys_snoc.
  assert (∀ keys : list string,
    map (fun k => (k, List.filter (fun y => String.eqb (key y) k) data
                      ++ (if String.eqb k (key x) then [x] else []))) keys
    = map (fun k => (k, List.filter (fun y => String.eqb (key y) k)
                          (data ++ [x]))) keys) as Hmap.
  { intros keys. apply map_ext. intros k. rewrite filter_snoc.
    by rewrite (String.eqb_sym k). }
  rewrite Hmap. case_decide as Hin; [by rewrite app_nil_r |].
  rewrite map_app. f_equal. cbn [map]. rewrite filter_snoc, String.eqb_refl.
  rewrite filter_none; [done |].
  intros y Hy. apply String.eqb_neq. intros Heq. apply Hin.
  rewrite elem_of_dict_fromkeys, <- Heq. by apply list_elem_of_fmap_2.
Qed.

(** The grouping loop builds exactly the buckets. *)
Lemma group_by_buckets {A : Type} (key : A → string) (data : list A) :
  group_by key data = buckets_of key data.
Proof.
  unfold group_by.
  enough (∀ before,
    fold_left (fun groups entry => groups_append groups (key entry) entry)
      data (buckets_of key before) = buckets_of key (before ++ data)) as H
    by apply (H []).
  induction data as [|x data IH]; intros before; [by rewrite app_nil_r |].
  cbn [fold_left]. rewrite buckets_of_snoc, IH. by rewrite <- app_assoc.
Qed.

Lemma buckets_of_keys {A : Type} (key : A → string) (data : list A) :
  map fst (buckets_of key data) = dict_fromkeys (map key data).
Proof.
  unfold buckets_of. rewrite List.map_map. cbn [fst]. apply map_id.
Qed.

Lemma buckets_of_elem {A : Type} (key : A → string) (data : list A)
    (k : string) (xs : list A) :
  (k, xs) ∈ buckets_of key data
  ↔ xs = List.filter (fun x => String.eqb (key x) k) data ∧ xs ≠ [].
Proof.
  unfold buckets_of. rewrite list_elem_of_fmap. split.
  - intros (k' & [= -> ->] & Hin). split; [done |].
    apply elem_of_dict_fromkeys, list_elem_of_fmap in Hin as (x & -> & Hx).
    intros Hnil.
    assert (x ∈ List.filter (fun y => String.eqb (key y) (key x)) data) as Hmem.
    { apply list_elem_of_In, filter_In. split; [by apply list_elem_of_In |].
      apply String.eqb_refl. }
    rewrite Hnil in Hmem. by apply not_elem_of_nil in Hmem.
  - intros [-> Hne]. exists k. split; [done |].
    apply elem_of_dict_fromkeys.
    destruct (List.filter _ data) as [|x xs] eqn:Hf; [done |].
    assert (In x (List.filter (fun y => String.eqb (key y) k) data)) as Hin
      by (rewrite Hf; by left).
    apply filter_In in Hin as [Hin Hk%String.eqb_eq].
    apply list_elem_of_fmap. exists x. split; [done | by apply list_elem_of_In].
Qed.

Lemma buckets_of_nonempty {A : Type} (key : A → string) (data : list A) :
  Forall (fun bucket => bucket.2 ≠ []) (buckets_of key data).
Proof.
  apply Forall_forall. intros [k xs] Hin. by apply buckets_of_elem in Hin as [_ ?].
Qed.

(** ** Ranking *)

Lemma Qltb_false (a b : Q) : Qltb a b = false ↔ (b <= a)%Q.
Proof. unfold Qltb. by rewrite negb_false_iff, Qle_bool_iff. Qed.

Lemma key_lt_ge (a b : nat * Q) : key_lt a b = true → key_ge b a.
Proof.
  unfold key_lt, key_ge. destruct a as [fa ra], b as [fb rb]. cbn [fst snd].
  rewrite orb_true_iff, andb_true_iff, Nat.ltb_lt, Nat.eqb_eq, Qltb_lt.
  intros [Hlt | [-> Hlt]]; [by left | right]. split; [done |].
  by apply Qlt_le_weak.
Qed.

Lemma key_lt_false_ge (a b : nat * Q) : key_lt a b = false → key_ge a b.
Proof.
  unfold key_lt, key_ge. destruct a as [fa ra], b as [fb rb]. cbn [fst snd].
  rewrite orb_false_iff, andb_false_iff, Nat.ltb_ge, Nat.eqb_neq, Qltb_false.
  intros [Hle [Hne | Hrate]].
  - left. lia.
  - destruct (decide (fa = fb)) as [->|]; [by right | left; lia].
Qed.

Lemma key_ge_trans (a b c : nat * Q) : key_ge a b → key_ge b c → key_ge a c.
Proof.
  unfold key_ge. intros [Hab | [Hab Hrab]] [Hbc | [Hbc Hrbc]].
  - left. lia.
  - left. lia.
  - left. lia.
  - right. split; [congruence |]. by apply Qle_trans with b.2.
Qed.

Lemma insert_desc_perm (x : PatternInsight.t) (l : list PatternInsight.t) :
  insert_desc x l ≡ₚ x :: l.
Proof.
  induction l as [|y l IH]; [done |]. cbn [insert_desc].
  destruct (key_lt _ _); [| done]. rewrite IH. apply Permutation_swap.
Qed.

Lemma sort_desc_perm (l : list PatternInsight.t) : sort_desc l ≡ₚ l.
Proof.
  induction l as [|x l IH]; [done |].
  cbn [sort_desc foldr]. fold (sort_desc l). by rewrite insert_desc_perm, IH.
Qed.

Lemma insert_desc_sorted (x : PatternInsight.t) (l : list PatternInsight.t) :
  StronglySorted ranked_before l → StronglySorted ranked_before (insert_desc x l).
Proof.
  induction 1 as [|y l Hsorted IH Hy]; cbn [insert_desc].
  - repeat constructor.
  - destruct (key_lt (sort_key x) (sort_key y)) eqn:Hlt.
    + constructor; [done |]. rewrite insert_desc_perm.
      constructor; [by apply key_lt_ge | done].
    + apply key_lt_false_ge in Hlt.
      constructor; [by constructor |]. constructor; [done |].
      eapply Forall_impl; [exact Hy |]. intros z Hz.
      by apply key_ge_trans with (sort_key y).
Qed.

Lemma same_key_not_lt (k x y : PatternInsight.t) :
  same_key k x = true → same_key k y = true →
  key_lt (sort_key x) (sort_key y) = false.
Proof.
  unfold same_key, key_lt, sort_key. cbn [fst snd].
  rewrite !andb_true_iff, !Nat.eqb_eq, !Qeq_bool_iff.
  intros [Hfx Hrx] [Hfy Hry]. rewrite <- Hfx, <- Hfy, Nat.ltb_irrefl.
  rewrite Nat.eqb_refl. cbn [orb andb]. apply Qltb_false.
  rewrite <- Hrx, <- Hry. apply Qle_refl.
Qed.

(** The sort is stable: insights with the same key keep their order. *)
Lemma insert_desc_stable (k x : PatternInsight.t) (l : list PatternInsight.t) :
  List.filter (same_key k) (insert_desc x l) = List.filter (same_key k) (x :: l).
Proof.
  induction l as [|y l IH]; [done |]. cbn [insert_desc].
  destruct (key_lt (sort_key x) (sort_key y)) eqn:Hlt; [| done].
  cbn [List.filter] in *. rewrite IH.
  destruct (same_key k x) eqn:Hx, (same_key k y) eqn:Hy; try done.
  by rewrite (same_key_not_lt k x y) in Hlt.
Qed.

Lemma sort_desc_stable (k : PatternInsight.t) (l : list PatternInsight.t) :
  List.filter (same_key k) (sort_desc l) = List.filter (same_key k) l.
Proof.
  induction l as [|x l IH]; [done |]. cbn [sort_desc foldr]. fold (sort_desc l).
  rewrite insert_desc_stable. cbn [List.filter]. by rewrite IH.
Qed.

Lemma sort_desc_sorted (l : list PatternInsight.t) :
  StronglySorted ranked_before (sort_desc l).
Proof.
  induction l as [|x l IH]; [constructor |].
  cbn [sort_desc foldr]. by apply insert_desc_sorted.
Qed.

(** ** [analyze_patterns] *)

Section Analysis.

Variable sha256_hexdigest : string → string.
Variable self : LearningTracker.

Lemma filter_field_elem (field : LearningEntry.t → string) (o : option string)
    (data : list LearningEntry.t) (e : LearningEntry.t) :
  e ∈ filter_field field o data
  ↔ e ∈ data ∧ ∀ v, truthy o = Some v → field e = v.
Proof.
  unfold filter_field. destruct (truthy o) as [v|].
  - rewrite list_elem_of_In, filter_In, <- list_elem_of_In, String.eqb_eq.
    split; [intros [? <-]; split; [done | congruence] | intros [? H]; auto].
  - split; [intros ?; by split | by intros [? _]].
Qed.

(** The entries that reach the grouping loop: the stored ones no older than
    [days_back] days that pass the filters in force. *)
Lemma filtered_data_elem (now : Z) (agent pattern_type : option string)
    (days_back : Z) (learning_data : list LearningEntry.t)
    (e : LearningEntry.t) :
  e ∈ filtered_data now agent pattern_type days_back learning_data
  ↔ e ∈ learning_data
    ∧ (now - days_back * microseconds_per_day ≤ LearningEntry.timestamp e)%Z
    ∧ (∀ a, truthy agent = Some a → LearningEntry.agent e = a)
    ∧ (∀ p, truthy pattern_type = Some p → LearningEntry.pattern_type e = p).
Proof.
  unfold filtered_data, entries_since. rewrite !filter_field_elem.
  rewrite list_elem_of_In, filter_In, <- list_elem_of_In, Z.leb_le. tauto.
Qed.

(** The loop over the groups returns, with one insight per kept bucket, in
    the order of the groups. *)
Lemma insights_loop_ok (groups : list (string * list LearningEntry.t)) :
  Forall (fun bucket => bucket.2 ≠ []) groups →
  ∃ candidates,
    insights_loop sha256_hexdigest self groups = Ok candidates
    ∧ Forall2 (fun bucket insight =>
                 _generate_pattern_insight sha256_hexdigest bucket.1 bucket.2
                 = Ok insight)
        (List.filter (qualifies self) groups) candidates.
Proof.
  induction 1 as [|[signature entries] groups Hne _ (candidates & Hrun & Hall)].
  - exists []. by split.
  - cbn [insights_loop List.filter fst snd] in *.
    unfold qualifies at 1. cbn [fst snd].
    destruct (Z.leb _ _); cbn [andb]; [| by exists candidates].
    destruct (generate_nonempty sha256_hexdigest signature entries Hne)
      as (insight & Hgen & _ & _ & Hrate & _).
    rewrite Hgen, Hrun. cbn [mbind result_bind]. rewrite <- Hrate.
    destruct (Qle_bool _ _); eexists; split; try reflexivity; [| done].
    by constructor.
Qed.

Lemma kept_insight_bounds (bucket : string * list LearningEntry.t)
    (insight : PatternInsight.t) :
  bucket.2 ≠ [] →
  qualifies self bucket = true →
  _generate_pattern_insight sha256_hexdigest bucket.1 bucket.2 = Ok insight →
  (min_pattern_frequency self ≤ Z.of_nat (PatternInsight.frequency insight))%Z
  ∧ (min_confidence_threshold self <= PatternInsight.success_rate insight)%Q.
Proof.
  intros Hne [Hfreq Hrate]%andb_true_iff Hgen.
  destruct (generate_nonempty sha256_hexdigest bucket.1 bucket.2 Hne)
    as (insight' & Hgen' & _ & Hf & Hr & _).
  assert (insight = insight') as <- by congruence.
  rewrite Hf, Hr. split; [by apply Z.leb_le | by apply Qle_bool_iff].
Qed.

(** The cutoff is computed when the calendar has it, and only then. *)
Lemma cutoff_date_representable (now days_back : Z) :
  representable_cutoff now days_back →
  cutoff_date now days_back = Ok (now - days_back * microseconds_per_day)%Z.
Proof.
  intros (Hdays & Hmin & Hmax). unfold cutoff_date.
  rewrite (proj2 (Z.leb_le _ _) Hdays), (proj2 (Z.leb_le _ _) Hmin).
  by rewrite (proj2 (Z.leb_le _ _) Hmax).
Qed.

Lemma cutoff_date_overflow (now days_back : Z) :
  ¬ representable_cutoff now days_back →
  cutoff_date now days_back = Raise OverflowError.
Proof.
  intros Hnot. unfold cutoff_date, representable_cutoff in *.
  destruct (Z.leb_spec (Z.abs days_back) max_timedelta_days); [| done].
  destruct (Z.leb_spec datetime_min (now - days_back * microseconds_per_day));
    [| done].
  destruct (Z.leb_spec (now - days_back * microseconds_per_day) datetime_max);
    [| done].
  destruct Hnot. by repeat split.
Qed.

Lemma cutoff_date_inv (now days_back cutoff : Z) :
  cutoff_date now days_back = Ok cutoff → representable_cutoff now days_back.
Proof.
  unfold cutoff_date, representable_cutoff.
  destruct (Z.leb_spec (Z.abs days_back) max_timedelta_days); [| done].
  destruct (Z.leb_spec datetime_min (now - days_back * microseconds_per_day));
    [| done].
  destruct (Z.leb_spec (now - days_back * microseconds_per_day) datetime_max);
    [| done].
  done.
Qed.

Lemma analyze_patterns_inv (now : Z) (agent pattern_type : option string)
    (days_back : Z) (s : Store) (insights : list PatternInsight.t) :
  analyze_patterns sha256_hexdigest self now agent pattern_type days_back s
  = Ok insights →
  representable_cutoff now days_back.
Proof.
  unfold analyze_patterns.
  destruct (cutoff_date now days_back) as [cutoff|] eqn:Hcutoff; [| done].
  intros _. by eapply cutoff_date_inv.
Qed.

(** Without a cutoff nothing is analysed: the call raises before it looks
    at an entry. *)
Lemma analyze_patterns_overflow (now : Z) (agent pattern_type : option string)
    (days_back : Z) (s : Store) :
  ¬ representable_cutoff now days_back →
  analyze_patterns sha256_hexdigest self now agent pattern_type days_back s
  = Raise OverflowError.
Proof.
  intros Hnot. unfold analyze_patterns. by rewrite cutoff_date_overflow.
Qed.

(** [analyze_patterns] returns the stable descending sort of the insights
    of the kept buckets. *)
Lemma analyze_patterns_candidates (now : Z) (agent pattern_type : option string)
    (days_back : Z) (s : Store) :
  representable_cutoff now days_back →
  ∃ candidates,
    analyze_patterns sha256_hexdigest self now agent pattern_type days_back s
    = Ok (sort_desc candidates)
    ∧ Forall2 (fun bucket insight =>
                 _generate_pattern_insight sha256_hexdigest bucket.1 bucket.2
                 = Ok insight)
        (List.filter (qualifies self)
           (buckets_of _create_pattern_signature
              (filtered_data now agent pattern_type days_back
                 (_load_json (learning_db s) []))))
        candidates.
Proof.
  intros Hcutoff.
  pose proof (buckets_of_nonempty _create_pattern_signature
                (filtered_data now agent pattern_type days_back
                   (_load_json (learning_db s) []))) as Hne.
  destruct (insights_loop_ok _ Hne) as (candidates & Hrun & Hall).
  exists candidates. split; [| done].
  unfold analyze_patterns. rewrite cutoff_date_representable by done.
  cbn [mbind result_bind].
  fold (filtered_data now agent pattern_type days_back
          (_load_json (learning_db s) [])).
  rewrite group_by_buckets. by rewrite Hrun.
Qed.

Lemma same_insight_refl (insights : list PatternInsight.t) :
  Forall2 same_insight insights insights.
Proof.
  induction insights as [|insight insights IH]; constructor; [| done].
  by repeat split.
Qed.

(** C2 (as amended).  For every store and filter, and every days_back for
    which [now - timedelta(days=days_back)] is a date the calendar has (the
    days fit a timedelta and the cutoff lies in the years 1 to 9999),
    [analyze_patterns] returns; the entries it groups are the stored ones
    inside the time window that pass the filters; its result holds exactly
    the insights of the buckets with at least min_pattern_frequency entries
    and a success_rate of at least min_confidence_threshold (one insight
    per such bucket, nothing else), sorted descending by (frequency,
    success_rate) with frequency first; every returned insight meets both
    thresholds, so with a threshold above 0.5 (the default 0.7 is) none has
    success_rate 0.5; insights with equal keys keep the order of their
    buckets; and the ranking depends on the entries that reach the grouping
    loop alone: a call that groups the same entries returns the same
    insights in the same order, each the same up to the order of its
    agents, projects and recommendations. *)
Theorem analyze_patterns_ranked (now : Z) (agent pattern_type : option string)
    (days_back : Z) (s : Store) :
  let data :=
    filtered_data now agent pattern_type days_back
      (_load_json (learning_db s) []) in
  representable_cutoff now days_back →
  ∃ insights candidates,
    analyze_patterns sha256_hexdigest self now agent pattern_type days_back s
    = Ok insights
    ∧ (∀ e, e ∈ data
            ↔ e ∈ _load_json (learning_db s) []
              ∧ (now - days_back * microseconds_per_day
                 ≤ LearningEntry.timestamp e)%Z
              ∧ (∀ a, truthy agent = Some a → LearningEntry.agent e = a)
              ∧ (∀ p, truthy pattern_type = Some p
                      → LearningEntry.pattern_type e = p))
    ∧ Forall2 (fun bucket insight =>
                 _generate_pattern_insight sha256_hexdigest bucket.1 bucket.2
                 = Ok insight)
        (List.filter (qualifies self) (buckets_of _create_pattern_signature data))
        candidates
    ∧ insights ≡ₚ candidates
    ∧ StronglySorted ranked_before insights
    ∧ Forall (fun insight =>
                (min_pattern_frequency self
                 ≤ Z.of_nat (PatternInsight.frequency insight))%Z
                ∧ (min_confidence_threshold self
                   <= PatternInsight.success_rate insight)%Q) insights
    ∧ ((1 # 2 < min_confidence_threshold self)%Q →
       Forall (fun insight =>
                 ¬ (PatternInsight.success_rate insight == 1 # 2)%Q) insights)
    ∧ (∀ k, List.filter (same_key k) insights
            = List.filter (same_key k) candidates)
    ∧ (∀ now' s',
         representable_cutoff now' days_back →
         filtered_data now' agent pattern_type days_back
           (_load_json (learning_db s') []) = data →
         ∃ insights',
           analyze_patterns sha256_hexdigest self now' agent pattern_type
             days_back s' = Ok insights'
           ∧ Forall2 same_insight insights insights').
Proof.
  intros data Hcutoff.
  pose proof (buckets_of_nonempty _create_pattern_signature data) as Hne.
  destruct (analyze_patterns_candidates now agent pattern_type days_back s
              Hcutoff) as (candidates & Hresult & Hall).
  fold data in Hall.
  assert (Forall (fun insight =>
            (min_pattern_frequency self
             ≤ Z.of_nat (PatternInsight.frequency insight))%Z
            ∧ (min_confidence_threshold self
               <= PatternInsight.success_rate insight)%Q)
            (sort_desc candidates)) as Hbounds.
  { rewrite sort_desc_perm. clear Hresult.
    assert (Forall (fun bucket => bucket.2 ≠ [] ∧ qualifies self bucket = true)
              (List.filter (qualifies self)
                 (buckets_of _create_pattern_signature data))) as Hkept.
    { apply Forall_forall. intros bucket [Hin Hq]%list_elem_of_In%filter_In.
      split; [| done]. rewrite Forall_forall in Hne.
      by apply Hne, list_elem_of_In. }
    induction Hall as [|bucket insight buckets insights Hgen _ IH];
      [constructor |].
    apply Forall_cons in Hkept as [[Hb Hq] Hkept].
    constructor; [by eapply kept_insight_bounds | by apply IH]. }
  exists (sort_desc candidates), candidates.
  split; [done |]. split; [intros e; apply filtered_data_elem |].
  split; [done |]. split; [apply sort_desc_perm |].
  split; [apply sort_desc_sorted |]. split; [done |]. split.
  - intros Hthreshold. eapply Forall_impl; [exact Hbounds |].
    intros insight [_ Hrate] Hhalf. rewrite Hhalf in Hrate.
    by apply Qlt_not_le in Hthreshold.
  - split; [intros k; apply sort_desc_stable |].
    intros now' s' Hcutoff' Hsame. exists (sort_desc candidates).
    split; [| apply same_insight_refl].
    rewrite <- Hresult. unfold analyze_patterns.
    rewrite !cutoff_date_representable by done. cbn [mbind result_bind].
    fold (filtered_data now' agent pattern_type days_back
            (_load_json (learning_db s') [])).
    fold (filtered_data now agent pattern_type days_back
            (_load_json (learning_db s) [])).
    fold data. by rewrite Hsame.
Qed.

End Analysis.

Lemma analyze_patterns_ranked_witness :
  representable_cutoff sample_now 30
  ∧ ∃ insights,
      analyze_patterns sample_digest (init "demo") sample_now
        (Some "sherlock") None 30
        (mkStore (Some (map (fun e => project_entry "demo"
                                        (sample_now - LearningEntry.timestamp e)
                                        (LearningEntry.hash_id e))
                          (_load_json (learning_db sample_store) [])))
           None None) = Ok insights
      ∧ length insights = 1%nat
      ∧ Forall (fun insight =>
                  ¬ (PatternInsight.success_rate insight == 1 # 2)%Q) insights.
Proof.
  assert (representable_cutoff sample_now 30) as Hcutoff
    by (repeat split; vm_compute; discriminate).
  split; [exact Hcutoff |].
  destruct (analyze_patterns_ranked sample_digest (init "demo") sample_now
              (Some "sherlock") None 30
              (mkStore (Some (map (fun e => project_entry "demo"
                                        (sample_now - LearningEntry.timestamp e)
                                        (LearningEntry.hash_id e))
                                (_load_json (learning_db sample_store) [])))
                 None None) Hcutoff)
    as (insights & candidates & Hrun & _ & _ & _ & _ & _ & Hhalf & _ & _).
  exists insights. split; [exact Hrun |]. split.
  - vm_compute in Hrun. injection Hrun as <-. reflexivity.
  - apply Hhalf. reflexivity.
Defined.

(** C2 (counterexample).  With days_back = 740000 the cutoff would lie
    before the year 1: [datetime.now() - timedelta(days=740000)] raises
    [OverflowError] and [analyze_patterns] returns no list. *)
Lemma analyze_patterns_overflow_counterexample :
  analyze_patterns sample_digest (init "demo") sample_now None None 740000
    sample_store = Raise OverflowError
  ∧ ¬ ∃ insights,
        analyze_patterns sample_digest (init "demo") sample_now None None
          740000 sample_store = Ok insights.
Proof.
  assert (analyze_patterns sample_digest (init "demo") sample_now None None
            740000 sample_store = Raise OverflowError) as Hraise
    by reflexivity.
  split; [exact Hraise |]. intros [insights Hok]. congruence.
Qed.

(** ** [get_recommendations] *)

Lemma fromkeys_from (acc l : list string) :
  fold_left (fun d x => if decide (x ∈ d) then d else d ++ [x]) l acc
  = acc ++ filter (fun x => x ∉ acc) (dict_fromkeys l).
Proof.
  induction l as [|x l IH] using rev_ind; [by rewrite app_nil_r |].
  rewrite fold_left_app, dict_fromkeys_snoc. cbn [fold_left]. rewrite IH.
  destruct (decide (x ∈ acc)) as [Hacc|Hacc].
  - rewrite decide_True by (apply elem_of_app; by left).
    case_decide; [done |]. rewrite filter_app, filter_cons_False by tauto.
    by rewrite filter_nil, app_nil_r.
  - destruct (decide (x ∈ dict_fromkeys l)) as [Hd|Hd].
    + rewrite decide_True; [done |]. apply elem_of_app. right.
      by apply list_elem_of_filter.
    + rewrite decide_False.
      * by rewrite filter_app, filter_cons_True, filter_nil, app_assoc.
      * rewrite elem_of_app, list_elem_of_filter. tauto.
Qed.

(** [dict.fromkeys] keeps the first occurrence of each string, in order. *)
Lemma dict_fromkeys_cons (x : string) (l : list string) :
  dict_fromkeys (x :: l) = x :: filter (fun y => y ≠ x) (dict_fromkeys l).
Proof.
  unfold dict_fromkeys at 1. cbn [fold_left]. rewrite decide_False by apply not_elem_of_nil.
  rewrite fromkeys_from. cbn [app]. f_equal. apply list_filter_iff.
  intros y. by rewrite list_elem_of_singleton.
Qed.

Lemma collect_recommendations_total (context : Dict)
    (insights : list PatternInsight.t) (recommendations : list string) :
  Forall (fun insight => Forall (fun pc => pc ≠ [])
                           (PatternInsight.contexts insight)) insights →
  collect_recommendations context insights recommendations =
  Ok (recommendations
      ++ concat (map PatternInsight.recommendations
                   (List.filter (insight_matches context) insights))).
Proof.
  intros Hall. revert recommendations.
  induction Hall as [|insight insights Hctx _ IH]; intros recommendations.
  - by rewrite app_nil_r.
  - cbn [collect_recommendations List.filter].
    rewrite context_match_total by done. cbn [mbind result_bind]. rewrite IH.
    fold (insight_matches context insight).
    destruct (insight_matches context insight); [| done].
    cbn [map concat]. by rewrite app_assoc.
Qed.

Section Recommendations.

Variable sha256_hexdigest : string → string.
Variable self : LearningTracker.

(** Whenever the call returns, the list has at most five entries and no
    string twice. *)
Lemma get_recommendations_shape (now : Z) (agent : string) (context : Dict)
    (s : Store) (result : list string) :
  get_recommendations sha256_hexdigest self now agent context s = Ok result →
  (length result ≤ 5)%nat ∧ NoDup result.
Proof.
  unfold get_recommendations.
  destruct (analyze_patterns _ _ _ _ _ _ _) as [insights|]; [| done].
  cbn [mbind result_bind].
  destruct (collect_recommendations _ _ _) as [recommendations|]; [| done].
  intros [= <-]. split.
  - rewrite length_take. lia.
  - eapply sublist_NoDup; [apply NoDup_dict_fromkeys | apply sublist_take].
Qed.

(** When no stored event has an empty context (and the clock is thirty
    days past the start of the calendar) the call returns, with the
    recommendations of the matching insights in ranked order, first
    occurrences only, cut to five. *)
Lemma get_recommendations_total (now : Z) (agent : string) (context : Dict)
    (s : Store) :
  representable_cutoff now 30 →
  Forall (fun e => LearningEntry.context e ≠ []) (_load_json (learning_db s) []) →
  ∃ insights,
    analyze_patterns sha256_hexdigest self now (Some agent) None 30 s
    = Ok insights
    ∧ get_recommendations sha256_hexdigest self now agent context s
      = Ok (take 5 (dict_fromkeys
                      (concat (map PatternInsight.recommendations
                                 (List.filter (insight_matches context)
                                    insights))))).
Proof.
  intros Hcutoff Hctx.
  destruct (analyze_patterns_candidates sha256_hexdigest self now (Some agent)
              None 30 s Hcutoff) as (candidates & Hrun & Hall).
  exists (sort_desc candidates). split; [done |]. unfold get_recommendations.
  rewrite Hrun. cbn [mbind result_bind].
  rewrite collect_recommendations_total; [done |].
  rewrite sort_desc_perm. clear Hrun.
  assert (Forall (fun bucket : string * list LearningEntry.t =>
                    Forall (fun e => LearningEntry.context e ≠ []) bucket.2)
            (List.filter (qualifies self)
               (buckets_of _create_pattern_signature
                  (filtered_data now (Some agent) None 30
                     (_load_json (learning_db s) []))))) as Hbuckets.
  { apply Forall_forall. intros [k es] [Hin _]%list_elem_of_In%filter_In.
    apply list_elem_of_In, buckets_of_elem in Hin as [-> _]. cbn [snd].
    apply Forall_forall. intros e [He _]%list_elem_of_In%filter_In.
    apply list_elem_of_In, filtered_data_elem in He as [He _].
    rewrite Forall_forall in Hctx. by apply Hctx. }
  induction Hall as [|bucket insight buckets insights' Hgen _ IH];
    [constructor |].
  apply Forall_cons in Hbuckets as [Hb Hbuckets].
  constructor; [| by apply IH].
  destruct (bucket.2) as [|e es] eqn:Hes; [done |].
  destruct (generate_nonempty sha256_hexdigest bucket.1 (e :: es))
    as (insight' & Hgen' & _ & _ & _ & Hc & _); [done |].
  assert (insight = insight') as <- by congruence.
  rewrite Hc. by apply Forall_fmap.
Qed.

(** C6.  The claim asks for a list of at most five distinct strings for
    every agent and query context.  On a fresh installation record three
    qualifying events without context: the insight's stored contexts are
    then empty, the matching step divides by zero, and
    [get_recommendations] raises [ZeroDivisionError] instead of returning a
    list, whatever the query context. *)
Theorem get_recommendations_raises_on_empty_context (isoformat : Z → string)
    (str_dict : Dict → string) (context : Dict) :
  get_recommendations sha256_hexdigest (init "demo") 1000 "sherlock" context
    (recorded_without_context sha256_hexdigest isoformat str_dict)
  = Raise ZeroDivisionError.
Proof. reflexivity. Qed.

End Recommendations.

(** ** [record_learning] *)

Section Recording.

Variable sha256_hexdigest : string → string.
Variable isoformat : Z → string.
Variable str_dict : Dict → string.

(** The insight update never touches the event log, and it either goes
    through or stops on a record of the other kind. *)
Lemma update_pattern_insights_cases (entry : LearningEntry.t) (s : Store) :
  let key :=
    LearningEntry.agent entry +:+ "_" +:+ LearningEntry.pattern_type entry in
  let r := _update_pattern_insights entry s in
  learning_db r.1 = learning_db s
  ∧ global_db r.1 = global_db s
  ∧ ((∃ g, _load_json (insights_db s) ∅ !! key = Some (GlobalRecord g))
       ∧ r.2 = Raise KeyError
     ∨ (∀ g, _load_json (insights_db s) ∅ !! key ≠ Some (GlobalRecord g))
       ∧ r.2 = Ok ()).
Proof.
  intros key r. subst r. unfold _update_pattern_insights. fold key.
  destruct (_load_json (insights_db s) ∅ !! key) as [[r|g]|] eqn:Hlookup.
  - rewrite Hlookup. cbn [fst snd]. repeat split. by right.
  - rewrite Hlookup. cbn [fst snd]. repeat split. left. eauto.
  - rewrite lookup_insert_eq. cbn [fst snd]. repeat split. by right.
Qed.

Lemma record_learning_unfold (self : LearningTracker) (now : Z)
    (agent pattern_type : string) (context : Dict) (outcome : string)
    (confidence : Q) (tags : option (list string)) (s : Store) :
  let id :=
    entry_hash sha256_hexdigest isoformat str_dict now agent pattern_type
      context outcome in
  let entry :=
    LearningEntry.mk now agent (project_name self) pattern_type context outcome
      confidence (default [] tags) id in
  let u :=
    _update_pattern_insights entry
      (save_learning_db (_load_json (learning_db s) [] ++ [entry]) s) in
  record_learning sha256_hexdigest isoformat str_dict self now agent
    pattern_type context outcome confidence tags s
  = (u.1, match u.2 with Ok _ => Ok id | Raise e => Raise e end).
Proof.
  intros id entry u. subst u. unfold record_learning. fold id. fold entry.
  by destruct (_update_pattern_insights _ _) as [? [?|?]].
Qed.

(** C9.  The id of a recorded event is [entry_hash] of the timestamp, the
    agent, the pattern type, the context and the outcome, and of nothing
    else: two calls that agree on these five (the same clock reading and the
    same four arguments) append entries with the same hash_id, and return
    that same id, whatever the tracker's project, the confidence, the tags
    and the contents of the files.  (A call returns unless the insight
    index holds a global record under the key "<agent>_<type>"; the entry
    is appended with its id even then.) *)
Theorem record_learning_id_of_five_fields (self1 self2 : LearningTracker)
    (now : Z) (agent pattern_type : string) (context : Dict) (outcome : string)
    (confidence1 confidence2 : Q) (tags1 tags2 : option (list string))
    (s1 s2 : Store) :
  let id :=
    entry_hash sha256_hexdigest isoformat str_dict now agent pattern_type
      context outcome in
  let r1 :=
    record_learning sha256_hexdigest isoformat str_dict self1 now agent
      pattern_type context outcome confidence1 tags1 s1 in
  let r2 :=
    record_learning sha256_hexdigest isoformat str_dict self2 now agent
      pattern_type context outcome confidence2 tags2 s2 in
  ∃ e1 e2,
    learning_db r1.1 = Some (_load_json (learning_db s1) [] ++ [e1])
    ∧ learning_db r2.1 = Some (_load_json (learning_db s2) [] ++ [e2])
    ∧ LearningEntry.hash_id e1 = id
    ∧ LearningEntry.hash_id e2 = id
    ∧ LearningEntry.project e1 = project_name self1
    ∧ LearningEntry.project e2 = project_name self2
    ∧ LearningEntry.confidence e1 = confidence1
    ∧ LearningEntry.confidence e2 = confidence2
    ∧ LearningEntry.tags e1 = default [] tags1
    ∧ LearningEntry.tags e2 = default [] tags2
    ∧ (r1.2 = Ok id ∨ r1.2 = Raise KeyError)
    ∧ (r2.2 = Ok id ∨ r2.2 = Raise KeyError)
    ∧ ((∀ g, _load_json (insights_db s1) ∅ !! (agent +:+ "_" +:+ pattern_type)
             ≠ Some (GlobalRecord g)) → r1.2 = Ok id)
    ∧ (∀ h1 h2, r1.2 = Ok h1 → r2.2 = Ok h2 → h1 = h2).
Proof.
  intros id r1 r2.
  set (e1 := LearningEntry.mk now agent (project_name self1) pattern_type
               context outcome confidence1 (default [] tags1) id).
  set (e2 := LearningEntry.mk now agent (project_name self2) pattern_type
               context outcome confidence2 (default [] tags2) id).
  pose proof (update_pattern_insights_cases e1
    (save_learning_db (_load_json (learning_db s1) [] ++ [e1]) s1)) as H1.
  pose proof (update_pattern_insights_cases e2
    (save_learning_db (_load_json (learning_db s2) [] ++ [e2]) s2)) as H2.
  cbn zeta in H1, H2. cbn [LearningEntry.agent LearningEntry.pattern_type e1 e2]
    in H1, H2.
  pose proof (record_learning_unfold self1 now agent pattern_type context
                outcome confidence1 tags1 s1) as Hr1.
  pose proof (record_learning_unfold self2 now agent pattern_type context
                outcome confidence2 tags2 s2) as Hr2.
  cbn zeta in Hr1, Hr2. fold id in Hr1, Hr2. fold e1 in Hr1. fold e2 in Hr2.
  fold r1 in Hr1. fold r2 in Hr2.
  clearbody r1 r2. subst r1 r2. cbn [fst snd].
  destruct H1 as (Hdb1 & _ & Hcase1), H2 as (Hdb2 & _ & Hcase2).
  cbn [save_learning_db insights_db] in Hcase1, Hcase2.
  exists e1, e2. rewrite Hdb1, Hdb2. cbn [save_learning_db learning_db].
  do 10 (split; [reflexivity |]).
  split; [destruct Hcase1 as [[_ ->] | [_ ->]]; auto |].
  split; [destruct Hcase2 as [[_ ->] | [_ ->]]; auto |].
  split.
  - intros Hfree. destruct Hcase1 as [[[g Hg] _] | [_ ->]]; [| done].
    by destruct (Hfree g).
  - intros h1 h2.
    destruct Hcase1 as [[_ ->] | [_ ->]]; [done |].
    destruct Hcase2 as [[_ ->] | [_ ->]]; [done |]. congruence.
Qed.

End Recording.

Lemma record_learning_id_of_five_fields_witness :
  ∃ id,
    (record_learning sample_digest sample_isoformat sample_str_dict
       (init "demo") 400 "sherlock" "bug_fix" [("file_type", VStr "python")]
       "fixed" (9 # 10) (Some ["debugging"]) sample_store).2 = Ok id
    ∧ (record_learning sample_digest sample_isoformat sample_str_dict
         (init "other") 400 "sherlock" "bug_fix" [("file_type", VStr "python")]
         "fixed" (1 # 10) None empty_context_store).2 = Ok id.
Proof.
  destruct (record_learning_id_of_five_fields sample_digest sample_isoformat
              sample_str_dict (init "demo") (init "other") 400 "sherlock"
              "bug_fix" [("file_type", VStr "python")] "fixed" (9 # 10)
              (1 # 10) (Some ["debugging"]) None sample_store
              empty_context_store)
    as (e1 & e2 & _ & _ & _ & _ & _ & _ & _ & _ & _ & _ & _ & _ & Hfree & _).
  eexists. split; [apply Hfree; intros g; by vm_compute |].
  by vm_compute.
Defined.

(** ** [sync_with_global] *)

Lemma dict_set_fresh {V : Type} (d : list (string * V)) (key : string) (v : V) :
  key ∉ map fst d → dict_set d key v = d ++ [(key, v)].
Proof.
  induction d as [|[k w] d IH]; [done |]. cbn [map fst dict_set app].
  rewrite not_elem_of_cons. intros [Hne Hnotin].
  destruct (String.eqb_spec k key) as [->|_]; [done |]. by rewrite IH.
Qed.

Lemma filter_map_keys {A : Type} (f : string → A) (p : string * A → bool)
    (keys : list string) :
  List.filter p (map (fun k => (k, f k)) keys)
  = map (fun k => (k, f k)) (List.filter (fun k => p (k, f k)) keys).
Proof.
  induction keys as [|k keys IH]; [done |]. cbn [map List.filter].
  destruct (p (k, f k)); cbn [map]; by rewrite IH.
Qed.

Lemma NoDup_List_filter {A : Type} (p : A → bool) (l : list A) :
  NoDup l → NoDup (List.filter p l).
Proof.
  induction 1 as [|x l Hx _ IH]; [constructor |]. cbn [List.filter].
  destruct (p x); [| done]. constructor; [| done].
  intros [Hin _]%list_elem_of_In%filter_In. by apply Hx, list_elem_of_In.
Qed.

(** The candidate keys are pairwise distinct. *)
Lemma global_candidates_keys (global_data : list LearningEntry.t) :
  NoDup (map fst (global_candidates global_data)).
Proof.
  unfold global_candidates, buckets_of.
  rewrite filter_map_keys, !List.map_map. cbn [fst]. rewrite map_id.
  apply NoDup_List_filter, NoDup_dict_fromkeys.
Qed.

(** A candidate stands for a key whose group holds five entries or more. *)
Lemma global_candidates_elem (global_data : list LearningEntry.t)
    (key : string) (g : GlobalInsight.t) :
  (key, g) ∈ global_candidates global_data
  ↔ (5 ≤ length (global_group key global_data))%nat
    ∧ g = global_insight_of (global_group key global_data).
Proof.
  unfold global_candidates. rewrite list_elem_of_fmap. split.
  - intros ([k es] & [= -> ->] & [Hin Hlen]%list_elem_of_In%filter_In).
    apply list_elem_of_In, buckets_of_elem in Hin as [-> _].
    cbn [snd] in *. split; [by apply Nat.leb_le | done].
  - intros [Hlen ->]. exists (key, global_group key global_data).
    split; [done |]. apply list_elem_of_In, filter_In.
    split; [| by apply Nat.leb_le].
    apply list_elem_of_In, buckets_of_elem. split; [done |].
    intros Hnil. rewrite Hnil in Hlen. cbn in Hlen. lia.
Qed.

Lemma global_insights_loop_ok (groups : list (string * list LearningEntry.t))
    (insights : list (string * GlobalInsight.t)) :
  NoDup (map fst groups) →
  (∀ k, k ∈ map fst groups → k ∉ map fst insights) →
  global_insights_loop groups insights =
  Ok (insights
      ++ map (fun bucket => (bucket.1, global_insight_of bucket.2))
           (List.filter (fun bucket => (5 <=? length bucket.2)%nat) groups)).
Proof.
  intros Hnodup. revert insights.
  induction groups as [|[k es] groups IH]; intros insights Hfresh.
  - by rewrite app_nil_r.
  - cbn [map fst] in Hnodup. apply NoDup_cons in Hnodup as [Hk Hnodup].
    cbn [global_insights_loop List.filter snd].
    destruct (Nat.leb_spec 5 (length es)) as [Hlen|Hlen].
    + rewrite py_div_ok by lia. cbn [mbind result_bind].
      rewrite dict_set_fresh by (apply Hfresh; cbn; apply elem_of_cons; by left).
      rewrite IH; [by rewrite <- app_assoc | done |].
      intros k' Hk'. rewrite map_app, elem_of_app. cbn [map fst].
      rewrite list_elem_of_singleton. intros [Hin | ->]; [| done].
      eapply Hfresh; [| exact Hin]. cbn. apply elem_of_cons. by right.
    + apply IH; [done |]. intros k' Hk'. apply Hfresh. cbn.
      apply elem_of_cons. by right.
Qed.

(** [_analyze_global_patterns] always returns, with the candidates. *)
Lemma analyze_global_patterns_ok (global_data : list LearningEntry.t) :
  _analyze_global_patterns global_data = Ok (global_candidates global_data).
Proof.
  unfold _analyze_global_patterns. rewrite group_by_buckets.
  rewrite global_insights_loop_ok; [done | |].
  - rewrite buckets_of_keys. apply NoDup_dict_fromkeys.
  - intros k _. apply not_elem_of_nil.
Qed.

Section Sync.

Variable self : LearningTracker.

(** Keys that no relevant insight carries keep their record. *)
Lemma merge_untouched (insights : list (string * GlobalInsight.t))
    (acc : gmap string InsightRecord * nat) (key : string) :
  key ∉ map fst (List.filter (relevant_here self) insights) →
  (fold_left (merge_step self) insights acc).1 !! key = acc.1 !! key.
Proof.
  revert acc. induction insights as [|[k g] insights IH]; intros acc; [done |].
  cbn [fold_left List.filter]. unfold merge_step at 2, relevant_here at 1.
  cbn [fst snd]. destruct (_is_insight_relevant g (project_name self)).
  - cbn [map fst]. rewrite not_elem_of_cons. intros [Hne Hnotin].
    rewrite IH by done. cbn [fst]. by rewrite lookup_insert_ne.
  - apply IH.
Qed.

(** A relevant insight ends up stored under its key. *)
Lemma merge_imported (insights : list (string * GlobalInsight.t))
    (acc : gmap string InsightRecord * nat) (key : string)
    (g : GlobalInsight.t) :
  NoDup (map fst insights) →
  (key, g) ∈ insights →
  _is_insight_relevant g (project_name self) = true →
  (fold_left (merge_step self) insights acc).1 !! key = Some (GlobalRecord g).
Proof.
  intros Hnodup Hin Hrel. revert acc.
  induction insights as [|[k g'] insights IH]; intros acc.
  - by apply elem_of_nil in Hin.
  - cbn [map fst] in Hnodup. apply NoDup_cons in Hnodup as [Hk Hnodup].
    cbn [fold_left]. apply elem_of_cons in Hin as [[= <- <-] | Hin].
    + rewrite merge_untouched.
      * unfold merge_step. cbn [fst snd]. rewrite Hrel. cbn [fst].
        apply lookup_insert_eq.
      * intros Hmem. apply Hk.
        apply list_elem_of_fmap in Hmem as (item & -> & Hitem).
        apply list_elem_of_In, filter_In in Hitem as [Hitem _].
        apply list_elem_of_fmap. exists item. by rewrite list_elem_of_In.
    + by apply IH.
Qed.

Lemma merge_count (insights : list (string * GlobalInsight.t))
    (acc : gmap string InsightRecord * nat) :
  (fold_left (merge_step self) insights acc).2
  = (acc.2 + length (List.filter (relevant_here self) insights))%nat.
Proof.
  revert acc. induction insights as [|[k g] insights IH]; intros acc.
  - cbn. lia.
  - cbn [fold_left List.filter]. rewrite IH.
    unfold merge_step, relevant_here at 2. cbn [fst snd].
    destruct (_is_insight_relevant g (project_name self)); cbn [snd length]; lia.
Qed.

Lemma absent_from_set (global_data : list LearningEntry.t)
    (entry : LearningEntry.t) :
  bool_decide (LearningEntry.hash_id entry
               ∉ (list_to_set (map LearningEntry.hash_id global_data)
                  : gset string))
  = absent_from global_data entry.
Proof. unfold absent_from. apply bool_decide_ext. by rewrite elem_of_list_to_set. Qed.

(** The whole of [sync_with_global], step by step. *)
Lemma sync_with_global_unfold (s : Store) :
  let project_data := _load_json (learning_db s) [] in
  let global_data := _load_json (global_db s) [] in
  let new_entries := List.filter (absent_from global_data) project_data in
  let merged :=
    fold_left (merge_step self) (global_candidates (global_data ++ new_entries))
      (_load_json (insights_db s) ∅, 0%nat) in
  sync_with_global self s =
  (mkStore (learning_db s) (Some merged.1) (Some (global_data ++ new_entries)),
   Ok (mkStats (length new_entries) merged.2
         (length (global_data ++ new_entries)) (length project_data))).
Proof.
  intros project_data global_data new_entries merged.
  unfold sync_with_global. fold project_data global_data.
  assert (List.filter
            (fun entry => bool_decide
               (LearningEntry.hash_id entry
                ∉ (list_to_set (map LearningEntry.hash_id global_data)
                   : gset string))) project_data = new_entries) as ->.
  { apply filter_ext. intros e. apply absent_from_set. }
  rewrite analyze_global_patterns_ok.
  cbn [save_global_db insights_db]. fold merged. by destruct merged.
Qed.

Lemma filter_absent_again (global_data project_data : list LearningEntry.t) :
  List.filter
    (absent_from
       (global_data ++ List.filter (absent_from global_data) project_data))
    project_data = [].
Proof.
  apply filter_none. intros e He. unfold absent_from.
  apply bool_decide_eq_false. intros Hnotin. apply Hnotin.
  rewrite map_app, elem_of_app.
  destruct (decide (LearningEntry.hash_id e
                    ∈ map LearningEntry.hash_id global_data)) as [Hin|Hout].
  - by left.
  - right. apply list_elem_of_fmap. exists e. split; [done |].
    apply list_elem_of_In, filter_In. split; [by apply list_elem_of_In |].
    by apply bool_decide_eq_true.
Qed.

Lemma filter_split_length {A : Type} (p : A → bool) (l : list A) :
  (length (List.filter p l) + length (List.filter (fun x => negb (p x)) l)
   = length l)%nat.
Proof.
  induction l as [|x l IH]; [done |]. cbn [List.filter].
  destruct (p x); cbn [negb length]; lia.
Qed.

End Sync.

Lemma NoDup_fst_functional {A : Type} (l : list (string * A)) (k : string)
    (a b : A) :
  NoDup (map fst l) → (k, a) ∈ l → (k, b) ∈ l → a = b.
Proof.
  induction l as [|[k' c] l IH]; intros Hnodup Ha Hb.
  - by apply elem_of_nil in Ha.
  - cbn [map fst] in Hnodup. apply NoDup_cons in Hnodup as [Hk Hnodup].
    apply elem_of_cons in Ha as [Ha | Ha];
      apply elem_of_cons in Hb as [Hb | Hb]; simplify_eq.
    + done.
    + destruct Hk. apply list_elem_of_fmap.
      eexists (_, _). split; [| eassumption]. done.
    + destruct Hk. apply list_elem_of_fmap.
      eexists (_, _). split; [| eassumption]. done.
    + by apply IH.
Qed.

Lemma is_insight_relevant_spec (g : GlobalInsight.t) (name : string) :
  _is_insight_relevant g name = true
  ↔ (8 # 10 < GlobalInsight.success_rate g)%Q
    ∧ (2 < length (GlobalInsight.projects g))%nat.
Proof.
  unfold _is_insight_relevant. by rewrite andb_true_iff, Qltb_lt, Nat.ltb_lt.
Qed.

(** The projects of a candidate: each project of the group once. *)
Lemma global_insight_projects (entries : list LearningEntry.t) :
  NoDup (GlobalInsight.projects (global_insight_of entries))
  ∧ ∀ p, p ∈ GlobalInsight.projects (global_insight_of entries)
         ↔ ∃ e, e ∈ entries ∧ LearningEntry.project e = p.
Proof.
  cbn [global_insight_of GlobalInsight.projects]. split.
  - apply NoDup_elements.
  - intros p. rewrite elem_of_elements, elem_of_list_to_set, list_elem_of_fmap.
    split; intros (e & ? & ?); exists e; by split.
Qed.

(** C4.  [sync_with_global] returns, and reports as uploaded the number of
    local events whose id is not among the ids of the global log (so five
    local events of which two are already there by id give 3); the local
    log is left as it was, and running it again straight away uploads
    nothing. *)
Theorem sync_uploads_absent_entries_once (self : LearningTracker) (s : Store) :
  let project_data := _load_json (learning_db s) [] in
  let global_data := _load_json (global_db s) [] in
  ∃ s' stats,
    sync_with_global self s = (s', Ok stats)
    ∧ uploaded stats
      = length (List.filter (absent_from global_data) project_data)
    ∧ total_local stats = length project_data
    ∧ total_global stats = (length global_data + uploaded stats)%nat
    ∧ (length project_data = 5%nat →
       length (List.filter (fun e => negb (absent_from global_data e))
                 project_data) = 2%nat →
       uploaded stats = 3%nat)
    ∧ learning_db s' = learning_db s
    ∧ ∃ s'' stats',
        sync_with_global self s' = (s'', Ok stats')
        ∧ uploaded stats' = 0%nat
        ∧ global_db s'' = global_db s'.
Proof.
  intros project_data global_data.
  pose proof (sync_with_global_unfold self s) as Hfirst. cbn zeta in Hfirst.
  fold project_data global_data in Hfirst.
  eexists _, _. split; [exact Hfirst |]. cbn [uploaded total_local total_global].
  split; [done |]. split; [done |]. split; [by rewrite length_app |]. split.
  - intros Hfive Htwo.
    pose proof (filter_split_length (absent_from global_data) project_data).
    lia.
  - split; [done |].
    pose proof (sync_with_global_unfold self
      (mkStore (learning_db s)
         (Some (fold_left (merge_step self)
                  (global_candidates
                     (global_data
                      ++ List.filter (absent_from global_data) project_data))
                  (_load_json (insights_db s) ∅, 0%nat)).1)
         (Some (global_data
                ++ List.filter (absent_from global_data) project_data))))
      as Hsecond.
    cbn zeta in Hsecond. cbn [learning_db global_db _load_json] in Hsecond.
    fold project_data in Hsecond. rewrite filter_absent_again in Hsecond.
    rewrite app_nil_r in Hsecond.
    eexists _, _. split; [exact Hsecond |]. by split.
Qed.

Lemma sync_uploads_absent_entries_once_witness :
  ∃ s' stats,
    sync_with_global (init "demo") sync_store = (s', Ok stats)
    ∧ uploaded stats = 3%nat
    ∧ ∃ s'' stats',
        sync_with_global (init "demo") s' = (s'', Ok stats')
        ∧ uploaded stats' = 0%nat.
Proof.
  destruct (sync_uploads_absent_entries_once (init "demo") sync_store)
    as (s' & stats & Hrun & _ & _ & _ & Hscenario & _ & s'' & stats' & Hagain
        & Hzero & _).
  exists s', stats. split; [exact Hrun |]. split.
  - apply Hscenario; reflexivity.
  - exists s'', stats'. by split.
Defined.

(** C5.  During a sync the candidate global insights are those of the
    category+agent keys whose group in the merged global log holds at least
    five events, one per key; a candidate is relevant exactly when its
    success_rate is strictly above 0.8 and it lists strictly more than two
    projects, the projects of a candidate being the distinct projects of
    its group; a relevant candidate is stored in the local insight index
    under its key, a candidate that is not relevant leaves the record under
    its key as it was, as does every key without candidate, and downloaded
    counts the relevant candidates. *)
Theorem global_insights_import (self : LearningTracker) (s : Store) :
  let project_data := _load_json (learning_db s) [] in
  let global_data := _load_json (global_db s) [] in
  let merged_global :=
    global_data ++ List.filter (absent_from global_data) project_data in
  ∃ s' stats candidates,
    sync_with_global self s = (s', Ok stats)
    ∧ _analyze_global_patterns merged_global = Ok candidates
    ∧ NoDup (map fst candidates)
    ∧ (∀ key g,
         (key, g) ∈ candidates
         ↔ (5 ≤ length (global_group key merged_global))%nat
           ∧ g = global_insight_of (global_group key merged_global))
    ∧ (∀ g name,
         _is_insight_relevant g name = true
         ↔ (8 # 10 < GlobalInsight.success_rate g)%Q
           ∧ (2 < length (GlobalInsight.projects g))%nat)
    ∧ (∀ key g,
         (key, g) ∈ candidates →
         NoDup (GlobalInsight.projects g)
         ∧ ∀ p, p ∈ GlobalInsight.projects g
                ↔ ∃ e, e ∈ global_group key merged_global
                       ∧ LearningEntry.project e = p)
    ∧ (∀ key g,
         (key, g) ∈ candidates →
         _is_insight_relevant g (project_name self) = true →
         _load_json (insights_db s') ∅ !! key = Some (GlobalRecord g))
    ∧ (∀ key g,
         (key, g) ∈ candidates →
         _is_insight_relevant g (project_name self) = false →
         _load_json (insights_db s') ∅ !! key
         = _load_json (insights_db s) ∅ !! key)
    ∧ (∀ key,
         key ∉ map fst candidates →
         _load_json (insights_db s') ∅ !! key
         = _load_json (insights_db s) ∅ !! key)
    ∧ downloaded stats = length (List.filter (relevant_here self) candidates).
Proof.
  intros project_data global_data merged_global.
  pose proof (sync_with_global_unfold self s) as Hrun. cbn zeta in Hrun.
  fold project_data global_data merged_global in Hrun.
  pose proof (global_candidates_keys merged_global) as Hkeys.
  eexists _, _, (global_candidates merged_global).
  split; [exact Hrun |]. cbn [insights_db _load_json downloaded].
  split; [apply analyze_global_patterns_ok |]. split; [done |].
  split; [apply global_candidates_elem |].
  split; [apply is_insight_relevant_spec |]. split.
  { intros key g [_ ->]%global_candidates_elem.
    apply global_insight_projects. }
  split; [intros key g Hin Hrel; by apply merge_imported |]. split.
  - intros key g Hin Hrel. apply merge_untouched.
    intros (item & -> & Hitem)%list_elem_of_fmap.
    apply list_elem_of_In, filter_In in Hitem as [Hitem Hr].
    apply list_elem_of_In in Hitem. destruct item as [k g']. cbn [fst] in *.
    assert (g = g') as <- by by eapply NoDup_fst_functional.
    unfold relevant_here in Hr. cbn [snd] in Hr. congruence.
  - split.
    + intros key Hkey. apply merge_untouched.
      intros (item & -> & Hitem)%list_elem_of_fmap. apply Hkey.
      apply list_elem_of_In, filter_In in Hitem as [Hitem _].
      apply list_elem_of_fmap. exists item. by rewrite list_elem_of_In.
    + by rewrite merge_count.
Qed.

Lemma global_insights_import_witness :
  ∃ s' g,
    (sync_with_global (init "demo") sync_store).1 = s'
    ∧ GlobalInsight.frequency g = 7%nat
    ∧ length (GlobalInsight.projects g) = 3%nat
    ∧ _load_json (insights_db s') ∅ !! "bug_fix_sherlock"
      = Some (GlobalRecord g).
Proof.
  destruct (global_insights_import (init "demo") sync_store)
    as (s' & stats & candidates & Hrun & Hana & _ & _ & _ & _ & Himport & _).
  vm_compute in Hana. injection Hana as <-.
  eexists s', _. split; [by rewrite Hrun |]. split; [| split]; cycle 2.
  - apply Himport; [apply elem_of_cons; left; reflexivity | reflexivity].
  - reflexivity.
  - reflexivity.
Defined.


(** * Further properties *)

(** ** The rolling insight index *)

(** Appending to the ring of examples keeps the last five. *)
Lemma ring_update {A : Type} (l : list A) (x : A) :
  (if (5 <? length (last_five l ++ [x]))%nat
   then last_five (last_five l ++ [x]) else last_five l ++ [x])
  = last_five (l ++ [x]).
Proof.
  unfold last_five. rewrite !length_app, length_drop. cbn [length].
  destruct (Nat.ltb_spec 5 (length l - (length l - 5) + 1)) as [Hlt|Hle].
  - rewrite (drop_app_le l [x]) by lia.
    rewrite drop_app_le by (rewrite length_drop; lia).
    rewrite drop_drop. do 2 f_equal. lia.
  - replace (length l - 5)%nat with 0%nat by lia.
    replace (length l + 1 - 5)%nat with 0%nat by lia. by rewrite !drop_0.
Qed.

(** What the update does when the index holds a rolling record, or none,
    under the key of the entry. *)
Lemma update_pattern_insights_rolling (entry : LearningEntry.t) (s : Store)
    (insight : Rolling.t) :
  let insights := _load_json (insights_db s) ∅ in
  (insights !! rolling_key entry = None
   ∧ insight = Rolling.mk 0 0 (LearningEntry.timestamp entry) []
   ∨ insights !! rolling_key entry = Some (RollingRecord insight)) →
  _update_pattern_insights entry s =
  (save_insights_db
     (<[rolling_key entry := RollingRecord (rolling_update insight entry)]>
        insights) s, Ok ()).
Proof.
  intros insights. unfold _update_pattern_insights. fold (rolling_key entry).
  fold insights. intros [[Hnone ->] | Hsome].
  - rewrite Hnone, lookup_insert_eq. by rewrite insert_insert_eq.
  - by rewrite Hsome, Hsome.
Qed.

(** Updating the summary of a run with one more entry gives the summary of
    the longer run. *)
Lemma rolling_of_snoc (entries : list LearningEntry.t) (entry : LearningEntry.t) :
  rolling_update
    (match entries with
     | [] => Rolling.mk 0 0 (LearningEntry.timestamp entry) []
     | _ => rolling_of entries
     end) entry
  = rolling_of (entries ++ [entry]).
Proof.
  assert (rolling_update (rolling_of entries) entry
          = rolling_of (entries ++ [entry])) as Hstep.
  { unfold rolling_update, rolling_of.
    cbn [Rolling.count Rolling.success_count Rolling.examples].
    rewrite !map_app. cbn [map]. fold (example_of entry).
    rewrite ring_update, List.last_last, filter_snoc, !length_app.
    cbn [length]. f_equal.
    - lia.
    - destruct (Qltb _ _); cbn [length]; lia. }
  destruct entries as [|e entries]; [| done].
  rewrite <- Hstep. reflexivity.
Qed.

Section RollingIndex.

Variable sha256_hexdigest : string → string.
Variable isoformat : Z → string.
Variable str_dict : Dict → string.
Variable self : LearningTracker.

Lemma record_call_tracked (c : Call) (s : Store) :
  index_tracks_log s →
  ∃ s',
    record_call sha256_hexdigest isoformat str_dict self c s
    = (s', Ok (LearningEntry.hash_id
                 (entry_of sha256_hexdigest isoformat str_dict self c)))
    ∧ learning_db s'
      = Some (_load_json (learning_db s) []
              ++ [entry_of sha256_hexdigest isoformat str_dict self c])
    ∧ global_db s' = global_db s
    ∧ index_tracks_log s'.
Proof.
  intros (insights & Hdb & Hindex).
  set (entry := entry_of sha256_hexdigest isoformat str_dict self c).
  set (log := _load_json (learning_db s) []) in *.
  set (run := List.filter (fun e => String.eqb (rolling_key e)
                                      (rolling_key entry)) log).
  pose proof (update_pattern_insights_rolling entry
                (save_learning_db (log ++ [entry]) s)
                (match run with
                 | [] => Rolling.mk 0 0 (LearningEntry.timestamp entry) []
                 | _ => rolling_of run
                 end)) as Hupdate.
  cbn zeta in Hupdate. cbn [save_learning_db insights_db] in Hupdate.
  rewrite Hdb in Hupdate. cbn [_load_json] in Hupdate.
  rewrite rolling_of_snoc in Hupdate.
  assert (record_call sha256_hexdigest isoformat str_dict self c s
          = (let u := _update_pattern_insights entry
                        (save_learning_db (log ++ [entry]) s) in
             (u.1, match u.2 with
                   | Ok _ => Ok (LearningEntry.hash_id entry)
                   | Raise e => Raise e
                   end))) as Hcall.
  { unfold record_call, record_learning. fold log.
    by destruct (_update_pattern_insights _ _) as [? [?|?]]. }
  rewrite Hupdate in Hcall.
  2:{ specialize (Hindex (rolling_key entry)). fold run in Hindex.
      destruct run; [by left | by right]. }
  cbn zeta in Hcall. cbn [fst snd] in Hcall.
  eexists. split; [exact Hcall |].
  cbn [save_insights_db save_learning_db learning_db global_db insights_db].
  split; [done |]. split; [done |].
  eexists. split; [reflexivity |]. intros key.
  cbn [save_insights_db save_learning_db learning_db _load_json].
  rewrite filter_snoc. destruct (String.eqb_spec (rolling_key entry) key) as [<-|Hne].
  - rewrite lookup_insert_eq. fold run. by destruct run.
  - rewrite lookup_insert_ne by done. rewrite app_nil_r. apply Hindex.
Qed.

(** X1.  On a store whose insight index is the summary of its event log,
    [record_learning] returns the id of the entry it builds, appends that
    entry to the log, leaves the global log alone, and the index is again
    the summary of the log: under the key "<agent>_<type>" the count grew by
    one, the success count grew when the confidence is above 0.7, and the
    examples are those of the last five entries under that key. *)
Theorem record_learning_keeps_index (c : Call) (s : Store) :
  index_tracks_log s →
  ∃ s',
    record_call sha256_hexdigest isoformat str_dict self c s
    = (s', Ok (LearningEntry.hash_id
                 (entry_of sha256_hexdigest isoformat str_dict self c)))
    ∧ learning_db s'
      = Some (_load_json (learning_db s) []
              ++ [entry_of sha256_hexdigest isoformat str_dict self c])
    ∧ global_db s' = global_db s
    ∧ index_tracks_log s'.
Proof. apply record_call_tracked. Qed.

Lemma record_all_tracked (calls : list Call) (s : Store) :
  index_tracks_log s →
  ∃ s',
    record_all sha256_hexdigest isoformat str_dict self calls s
    = (s', Ok (map (fun c => LearningEntry.hash_id
                               (entry_of sha256_hexdigest isoformat str_dict
                                  self c)) calls))
    ∧ _load_json (learning_db s') []
      = _load_json (learning_db s) []
        ++ map (entry_of sha256_hexdigest isoformat str_dict self) calls
    ∧ global_db s' = global_db s
    ∧ index_tracks_log s'.
Proof.
  revert s. induction calls as [|c calls IH]; intros s Htracked.
  - exists s. cbn [record_all map]. by rewrite app_nil_r.
  - destruct (record_call_tracked c s Htracked)
      as (s1 & Hcall & Hlog1 & Hglobal1 & Htracked1).
    destruct (IH s1 Htracked1) as (s2 & Hrest & Hlog2 & Hglobal2 & Htracked2).
    exists s2. cbn [record_all map]. rewrite Hcall, Hrest.
    split; [done |]. rewrite Hlog2, Hlog1. cbn [_load_json].
    rewrite <- app_assoc. repeat split; [congruence | done].
Qed.

Lemma fresh_store_tracked : index_tracks_log fresh_store.
Proof. exists ∅. split; [done |]. intros key. apply lookup_empty. Qed.

Lemma last_five_length {A : Type} (l : list A) :
  length (last_five l) = min 5 (length l).
Proof. unfold last_five. rewrite length_drop. lia. Qed.

(** X2.  On a fresh installation any sequence of [record_learning] calls
    goes through: every call returns its id, the log holds the entries in
    call order, and the insight index holds rolling records only, one
    under each key "<agent>_<type>" that was recorded and none elsewhere,
    whose count is the number of events logged under the key, whose
    success count is the number of those with confidence above 0.7 (so at
    most the count), and whose examples number five at most. *)
Theorem record_all_on_fresh_store (calls : list Call) :
  let entries := map (entry_of sha256_hexdigest isoformat str_dict self) calls in
  ∃ s insights,
    record_all sha256_hexdigest isoformat str_dict self calls fresh_store
    = (s, Ok (map LearningEntry.hash_id entries))
    ∧ _load_json (learning_db s) [] = entries
    ∧ insights_db s = Some insights
    ∧ ∀ key,
        let logged :=
          List.filter (fun e => String.eqb (rolling_key e) key) entries in
        match insights !! key with
        | None => logged = []
        | Some (GlobalRecord _) => False
        | Some (RollingRecord insight) =>
            logged ≠ []
            ∧ Rolling.count insight = length logged
            ∧ Rolling.success_count insight
              = length (List.filter
                          (fun e => Qltb (7 # 10) (LearningEntry.confidence e))
                          logged)
            ∧ (Rolling.success_count insight ≤ Rolling.count insight)%nat
            ∧ length (Rolling.examples insight)
              = min 5 (Rolling.count insight)
        end.
Proof.
  intros entries.
  destruct (record_all_tracked calls fresh_store fresh_store_tracked)
    as (s & Hrun & Hlog & _ & insights & Hdb & Hindex).
  exists s, insights.
  replace (map LearningEntry.hash_id entries)
    with (map (fun c => LearningEntry.hash_id
                          (entry_of sha256_hexdigest isoformat str_dict self c))
            calls) by (unfold entries; by rewrite List.map_map).
  split; [exact Hrun |]. split; [exact Hlog |]. split; [exact Hdb |].
  intros key logged. rewrite Hindex, Hlog.
  change (_load_json (learning_db fresh_store) []) with (@nil LearningEntry.t).
  cbn [app]. fold entries. fold logged. destruct logged as [|e logged'] eqn:Hlogged; [done |].
  cbn [rolling_of Rolling.count Rolling.success_count Rolling.examples].
  split; [done |]. split; [done |]. split; [done |].
  split; [apply filter_length_le |].
  by rewrite last_five_length, length_map.
Qed.

End RollingIndex.

Lemma record_learning_keeps_index_witness :
  index_tracks_log fresh_store
  ∧ ∃ s',
      record_call sample_digest sample_isoformat sample_str_dict (init "demo")
        (mkCall 100 "sherlock" "bug_fix" [] "Added a test" (9 # 10) None)
        fresh_store
      = (s', Ok "100sherlockbug_f") ∧ index_tracks_log s'.
Proof.
  assert (index_tracks_log fresh_store) as Hfresh.
  { exists ∅. split; [reflexivity |]. intros key. apply lookup_empty. }
  split; [exact Hfresh |].
  destruct (record_learning_keeps_index sample_digest sample_isoformat
              sample_str_dict (init "demo")
              (mkCall 100 "sherlock" "bug_fix" [] "Added a test" (9 # 10) None)
              fresh_store Hfresh) as (s' & Hcall & _ & _ & Htracked).
  exists s'. split; [exact Hcall | exact Htracked].
Defined.

(** ** When [record_learning] fails *)

Lemma update_pattern_insights_global (entry : LearningEntry.t) (s : Store)
    (g : GlobalInsight.t) :
  _load_json (insights_db s) ∅ !! rolling_key entry = Some (GlobalRecord g) →
  _update_pattern_insights entry s = (s, Raise KeyError).
Proof.
  intros Hg. unfold _update_pattern_insights. fold (rolling_key entry).
  by rewrite Hg, Hg.
Qed.

Section RecordingFailure.

Variable sha256_hexdigest : string → string.
Variable isoformat : Z → string.
Variable str_dict : Dict → string.
Variable self : LearningTracker.

Lemma record_call_unfold (c : Call) (s : Store) :
  let entry := entry_of sha256_hexdigest isoformat str_dict self c in
  let u :=
    _update_pattern_insights entry
      (save_learning_db (_load_json (learning_db s) [] ++ [entry]) s) in
  record_call sha256_hexdigest isoformat str_dict self c s
  = (u.1, match u.2 with
          | Ok _ => Ok (LearningEntry.hash_id entry)
          | Raise e => Raise e
          end).
Proof.
  intros entry u. subst u. unfold record_call, record_learning.
  by destruct (_update_pattern_insights _ _) as [? [?|?]].
Qed.

Lemma record_call_raises (c : Call) (s : Store) (g : GlobalInsight.t) :
  _load_json (insights_db s) ∅ !! (call_agent c +:+ "_" +:+ call_pattern_type c)
  = Some (GlobalRecord g) →
  record_call sha256_hexdigest isoformat str_dict self c s
  = (save_learning_db
       (_load_json (learning_db s) []
        ++ [entry_of sha256_hexdigest isoformat str_dict self c]) s,
     Raise KeyError).
Proof.
  intros Hg. rewrite record_call_unfold. cbn zeta.
  by rewrite (update_pattern_insights_global _ _ g).
Qed.

(** X3.  [record_learning] raises exactly when the insight index holds a
    record of the global kind under "<agent>_<type>", and then the
    exception is [KeyError]; the call is not atomic: the event is already
    appended to the log file, while the insight index and the global log
    are as before. *)
Theorem record_learning_key_error (c : Call) (s : Store) :
  let r := record_call sha256_hexdigest isoformat str_dict self c s in
  let key := call_agent c +:+ "_" +:+ call_pattern_type c in
  ((∃ e, r.2 = Raise e)
   ↔ ∃ g, _load_json (insights_db s) ∅ !! key = Some (GlobalRecord g))
  ∧ (∀ e, r.2 = Raise e →
       e = KeyError
       ∧ learning_db r.1
         = Some (_load_json (learning_db s) []
                 ++ [entry_of sha256_hexdigest isoformat str_dict self c])
       ∧ insights_db r.1 = insights_db s
       ∧ global_db r.1 = global_db s).
Proof.
  intros r key.
  destruct (_load_json (insights_db s) ∅ !! key) as [[insight|g]|] eqn:Hlookup.
  - assert (r.2 = Ok (LearningEntry.hash_id
                        (entry_of sha256_hexdigest isoformat str_dict self c)))
      as Hok.
    { subst r. rewrite record_call_unfold. cbn zeta.
      by rewrite (update_pattern_insights_rolling _ _ insight) by by right. }
    rewrite Hok. split; [| done]. split; [by intros [e ?] | by intros [g ?]].
  - subst r. rewrite (record_call_raises c s g Hlookup). cbn [fst snd].
    split; [split; eauto |]. by intros e [= <-].
  - assert (r.2 = Ok (LearningEntry.hash_id
                        (entry_of sha256_hexdigest isoformat str_dict self c)))
      as Hok.
    { subst r. rewrite record_call_unfold. cbn zeta.
      by rewrite (update_pattern_insights_rolling _ _
                    (Rolling.mk 0 0 (call_now c) [])) by by left. }
    rewrite Hok. split; [| done]. split; [by intros [e ?] | by intros [g ?]].
Qed.

(** X4.  Sync and recording do not compose: once [sync_with_global] has
    imported a relevant global insight, its key "<type>_<agent>" holds a
    record of the global kind, and every later [record_learning] whose
    "<agent>_<type>" is that same text (agent and category equal, for
    one) raises [KeyError]. *)
Theorem record_after_import_raises (c : Call) (s : Store)
    (candidates : list (string * GlobalInsight.t)) (g : GlobalInsight.t) :
  let global_data := _load_json (global_db s) [] in
  let merged_global :=
    global_data
    ++ List.filter (absent_from global_data) (_load_json (learning_db s) []) in
  _analyze_global_patterns merged_global = Ok candidates →
  (call_agent c +:+ "_" +:+ call_pattern_type c, g) ∈ candidates →
  _is_insight_relevant g (project_name self) = true →
  (record_call sha256_hexdigest isoformat str_dict self c
     (sync_with_global self s).1).2 = Raise KeyError.
Proof.
  intros global_data merged_global Hana Hin Hrel.
  rewrite analyze_global_patterns_ok in Hana. injection Hana as <-.
  rewrite sync_with_global_unfold. cbn zeta. cbn [fst].
  fold global_data merged_global.
  erewrite record_call_raises; [done |]. cbn [insights_db _load_json].
  apply merge_imported; [apply global_candidates_keys | done | done].
Qed.

End RecordingFailure.

Lemma record_after_import_raises_witness :
  ∃ candidates g,
    _analyze_global_patterns
      (_load_json (global_db qa_store) []
       ++ List.filter (absent_from (_load_json (global_db qa_store) []))
            (_load_json (learning_db qa_store) [])) = Ok candidates
    ∧ ("qa_qa", g) ∈ candidates
    ∧ _is_insight_relevant g "demo" = true
    ∧ (record_call sample_digest sample_isoformat sample_str_dict (init "demo")
         (mkCall 10 "qa" "qa" [] "Passed again" (9 # 10) None)
         (sync_with_global (init "demo") qa_store).1).2 = Raise KeyError.
Proof.
  eexists _, _. split; [vm_compute; reflexivity |].
  assert (∀ A (x : A) l, x ∈ x :: l) as Hhead by (intros; apply elem_of_cons; by left).
  split; [apply Hhead |]. split; [reflexivity |].
  eapply (record_after_import_raises sample_digest sample_isoformat
            sample_str_dict (init "demo")
            (mkCall 10 "qa" "qa" [] "Passed again" (9 # 10) None) qa_store).
  - vm_compute. reflexivity.
  - apply Hhead.
  - reflexivity.
Defined.


(** ** [_extract_recommendations] *)

Lemma outcome_recommendations_elem (outcome text : string) :
  text ∈ outcome_recommendations outcome
  ↔ ∃ needle, (needle, text) ∈ recommendation_triggers
              ∧ Str.contains needle (Str.lower outcome) = true.
Proof.
  unfold outcome_recommendations, recommendation_triggers.
  rewrite !elem_of_app. setoid_rewrite elem_of_cons.
  setoid_rewrite elem_of_cons. setoid_rewrite elem_of_cons.
  setoid_rewrite elem_of_cons. setoid_rewrite elem_of_nil. split.
  - intros [H | [H | [H | H]]].
    + destruct (Str.contains "refactor" _) eqn:Hc;
        [apply list_elem_of_singleton in H as -> | by apply elem_of_nil in H].
      exists "refactor". split; [left; reflexivity | done].
    + destruct (Str.contains "test" _) eqn:Hc;
        [apply list_elem_of_singleton in H as -> | by apply elem_of_nil in H].
      exists "test". split; [right; left; reflexivity | done].
    + destruct (Str.contains "performance" _) eqn:Hc;
        [apply list_elem_of_singleton in H as -> | by apply elem_of_nil in H].
      exists "performance". split; [right; right; left; reflexivity | done].
    + destruct (Str.contains "documentation" _) eqn:Hc;
        [apply list_elem_of_singleton in H as -> | by apply elem_of_nil in H].
      exists "documentation". split; [do 3 right; left; reflexivity | done].
  - intros (needle & [[= -> ->] | [[= -> ->] | [[= -> ->] | [[= -> ->] | []]]]]
            & Hc); rewrite Hc.
    + left. by apply list_elem_of_singleton.
    + right; left. by apply list_elem_of_singleton.
    + right; right; left. by apply list_elem_of_singleton.
    + right; right; right. by apply list_elem_of_singleton.
Qed.

(** X5.  [_extract_recommendations] returns each text at most once, only
    texts of the four triggers (so four at most), and a trigger's text is
    returned exactly when the lower-cased outcome of some entry it is given
    contains the trigger word. *)
Theorem extract_recommendations_spec (entries : list LearningEntry.t) :
  NoDup (_extract_recommendations entries)
  ∧ (length (_extract_recommendations entries) ≤ 4)%nat
  ∧ (∀ text, text ∈ _extract_recommendations entries →
             text ∈ recommendation_texts)
  ∧ (∀ text,
       text ∈ _extract_recommendations entries
       ↔ ∃ needle e,
           (needle, text) ∈ recommendation_triggers
           ∧ e ∈ entries
           ∧ Str.contains needle (Str.lower (LearningEntry.outcome e)) = true).
Proof.
  assert (∀ text,
    text ∈ _extract_recommendations entries
    ↔ ∃ needle e,
        (needle, text) ∈ recommendation_triggers
        ∧ e ∈ entries
        ∧ Str.contains needle (Str.lower (LearningEntry.outcome e)) = true)
    as Helem.
  { intros text. unfold _extract_recommendations.
    rewrite elem_of_elements, elem_of_list_to_set, list_elem_of_In, in_concat.
    split.
    - intros (l & Hl & Hin). apply in_map_iff in Hl as (e & <- & He).
      apply list_elem_of_In, outcome_recommendations_elem in Hin
        as (needle & Htrigger & Hc).
      exists needle, e. split; [done |]. split; [by apply list_elem_of_In | done].
    - intros (needle & e & Htrigger & He & Hc).
      exists (outcome_recommendations (LearningEntry.outcome e)). split.
      + apply in_map_iff. exists e. split; [done | by apply list_elem_of_In].
      + apply list_elem_of_In, outcome_recommendations_elem. eauto. }
  assert (∀ text, text ∈ _extract_recommendations entries →
                  text ∈ recommendation_texts) as Hsub.
  { intros text (needle & e & Htrigger & _)%Helem.
    unfold recommendation_triggers in Htrigger. unfold recommendation_texts.
    repeat (apply elem_of_cons in Htrigger as [[= _ ->] | Htrigger];
            [repeat first [apply list_elem_of_here | apply list_elem_of_further] |]).
    by apply elem_of_nil in Htrigger. }
  assert (NoDup (_extract_recommendations entries)) as Hnodup
    by (unfold _extract_recommendations; apply NoDup_elements).
  split; [done |]. split; [| by split].
  apply (submseteq_length _ recommendation_texts).
  by apply NoDup_submseteq.
Qed.

(** ** [_create_pattern_signature] *)

Lemma ascii_compare_refl (a : ascii) : Ascii.compare a a = Eq.
Proof. unfold Ascii.compare. apply N.compare_refl. Qed.

Lemma ascii_compare_lt_trans (a b c : ascii) :
  Ascii.compare a b = Lt → Ascii.compare b c = Lt → Ascii.compare a c = Lt.
Proof.
  unfold Ascii.compare. rewrite !N.compare_lt_iff. apply N.lt_trans.
Qed.

Lemma string_compare_le_trans (a b c : string) :
  String.compare a b ≠ Gt → String.compare b c ≠ Gt → String.compare a c ≠ Gt.
Proof.
  revert b c. induction a as [|x a IH]; intros [|y b] [|z c]; cbn; try done.
  destruct (Ascii.compare x y) eqn:Hxy, (Ascii.compare y z) eqn:Hyz; try done.
  - apply Ascii.compare_eq_iff in Hxy as ->, Hyz as ->.
    rewrite ascii_compare_refl. apply IH.
  - apply Ascii.compare_eq_iff in Hxy as ->. by rewrite Hyz.
  - apply Ascii.compare_eq_iff in Hyz as <-. by rewrite Hxy.
  - by rewrite (ascii_compare_lt_trans x y z).
Qed.

Lemma string_leb_trans (a b c : string) :
  String.leb a b = true → String.leb b c = true → String.leb a c = true.
Proof.
  unfold String.leb. intros Hab Hbc.
  pose proof (string_compare_le_trans a b c) as Htrans.
  destruct (String.compare a b), (String.compare b c), (String.compare a c);
    try done; by destruct Htrans.
Qed.

Lemma insert_sorted_comm (x y : string) (l : list string) :
  Str.insert_sorted x (Str.insert_sorted y l)
  = Str.insert_sorted y (Str.insert_sorted x l).
Proof.
  induction l as [|z l IH]; cbn [Str.insert_sorted].
  - destruct (String.leb x y) eqn:Hxy, (String.leb y x) eqn:Hyx; try done.
    + by rewrite (String.leb_antisym x y).
    + destruct (String.leb_total x y); congruence.
  - destruct (String.leb y z) eqn:Hyz, (String.leb x z) eqn:Hxz;
      cbn [Str.insert_sorted]; rewrite ?Hyz, ?Hxz.
    + destruct (String.leb x y) eqn:Hxy, (String.leb y x) eqn:Hyx; try done.
      * by rewrite (String.leb_antisym x y).
      * destruct (String.leb_total x y); congruence.
    + destruct (String.leb x y) eqn:Hxy; [| done].
      by rewrite (string_leb_trans x y z) in Hxz.
    + destruct (String.leb y x) eqn:Hyx; [| done].
      by rewrite (string_leb_trans y x z) in Hyz.
    + by rewrite IH.
Qed.

(** [sorted] does not depend on the order of its input. *)
Lemma sorted_Permutation (l1 l2 : list string) :
  l1 ≡ₚ l2 → Str.sorted l1 = Str.sorted l2.
Proof.
  induction 1 as [|x l1 l2 _ IH|x y l|l1 l2 l3 _ IH1 _ IH2];
    unfold Str.sorted in *; cbn [foldr].
  - done.
  - by rewrite IH.
  - apply insert_sorted_comm.
  - congruence.
Qed.

(** X6.  The grouping signature of an event depends on its category and
    on the set of its context keys only: two events of the same category
    whose contexts have the same keys, inserted in any order and with any
    values, get the same signature, and an event without context gets its
    category followed by an underscore. *)
Theorem signature_ignores_order_and_values (e1 e2 : LearningEntry.t) :
  LearningEntry.pattern_type e1 = LearningEntry.pattern_type e2 →
  map fst (LearningEntry.context e1) ≡ₚ map fst (LearningEntry.context e2) →
  _create_pattern_signature e1 = _create_pattern_signature e2
  ∧ (LearningEntry.context e1 = [] →
     _create_pattern_signature e1 = LearningEntry.pattern_type e1 +:+ "_").
Proof.
  intros Htype Hkeys. unfold _create_pattern_signature. split.
  - by rewrite Htype, (sorted_Permutation _ _ Hkeys).
  - intros ->. reflexivity.
Qed.

Lemma signature_ignores_order_and_values_witness :
  _create_pattern_signature
    (sample_entry 1 [("b", VInt 1); ("a", VStr "x")] "one" (1 # 10) "s1")
  = _create_pattern_signature
      (sample_entry 2 [("a", VNone); ("b", VBool true)] "two" (9 # 10) "s2").
Proof.
  apply (signature_ignores_order_and_values
           (sample_entry 1 [("b", VInt 1); ("a", VStr "x")] "one" (1 # 10) "s1")
           (sample_entry 2 [("a", VNone); ("b", VBool true)] "two" (9 # 10) "s2"));
    [reflexivity | apply Permutation_swap].
Defined.

(** ** More on context matching *)

Lemma dict_get_elem (d : Dict) (key : string) (v : PyVal) :
  NoDup (map fst d) → (key, v) ∈ d → dict_get d key = Some v.
Proof.
  induction d as [|[k w] d IH]; intros Hnodup Hin.
  - by apply elem_of_nil in Hin.
  - cbn [map fst] in Hnodup. apply NoDup_cons in Hnodup as [Hk Hnodup].
    cbn [dict_get]. apply elem_of_cons in Hin as [[= -> ->] | Hin].
    + by rewrite String.eqb_refl.
    + destruct (String.eqb_spec k key) as [->|_]; [| by apply IH].
      destruct Hk. apply list_elem_of_fmap. by exists (key, v).
Qed.

Lemma count_matches_all (context pattern_context : Dict) :
  Forall (agrees_on context) pattern_context →
  count_matches context pattern_context = length pattern_context.
Proof.
  unfold count_matches. induction 1 as [|item items (v & Hget & Hlower) _ IH];
    [done |].
  cbn [List.filter]. unfold key_matches at 1. rewrite Hget, Hlower.
  rewrite String.eqb_refl. cbn [length]. by rewrite IH.
Qed.

Lemma count_matches_none (context pattern_context : Dict) :
  Forall (fun item => dict_get context item.1 = None) pattern_context →
  count_matches context pattern_context = 0%nat.
Proof.
  unfold count_matches. induction 1 as [|item items Hget _ IH]; [done |].
  cbn [List.filter]. unfold key_matches at 1. by rewrite Hget.
Qed.

(** X7.  A query that has every key of the first stored pattern context,
    each with the same text up to case, matches, whatever else the query
    holds and whatever pattern contexts follow (empty ones included: they
    are never looked at). *)
Theorem agreeing_context_matches (context pattern_context : Dict)
    (rest : list Dict) :
  pattern_context ≠ [] →
  Forall (agrees_on context) pattern_context →
  _context_matches_pattern context (pattern_context :: rest) = Ok true.
Proof.
  intros Hne Hall. rewrite context_match_cons by done.
  rewrite count_matches_all by done. rewrite bool_decide_eq_true_2; [done | lia].
Qed.

Lemma agreeing_context_matches_witness :
  _context_matches_pattern
    [("lang", VStr "Python"); ("n", VInt 3); ("extra", VNone)]
    [[("n", VStr "3"); ("lang", VStr "PYTHON")]; []] = Ok true.
Proof.
  apply agreeing_context_matches; [done |].
  repeat constructor; eexists; split; reflexivity.
Defined.

(** X8.  A stored context that has keys matches itself: asking with the
    very context of a stored event finds that event's pattern. *)
Theorem context_matches_itself (context : Dict) (rest : list Dict) :
  context ≠ [] →
  NoDup (map fst context) →
  _context_matches_pattern context (context :: rest) = Ok true.
Proof.
  intros Hne Hnodup. rewrite context_match_cons by done.
  rewrite count_matches_all; [rewrite bool_decide_eq_true_2; [done | lia] |].
  apply Forall_forall. intros [k v] Hin. exists v. split; [| done].
  by apply dict_get_elem.
Qed.

Lemma context_matches_itself_witness :
  _context_matches_pattern boundary_pattern [boundary_pattern] = Ok true.
Proof.
  apply context_matches_itself; [done |].
  apply (bool_decide_unpack (NoDup (map fst boundary_pattern))). by vm_compute.
Defined.

(** X9.  A query that has none of the keys of the stored pattern contexts
    (the empty query, for one) matches nothing: when every pattern context
    has keys the answer is [False]. *)
Theorem keyless_query_matches_nothing (context : Dict)
    (pattern_contexts : list Dict) :
  Forall (fun pc => pc ≠ []
                    ∧ Forall (fun item => dict_get context item.1 = None) pc)
    pattern_contexts →
  _context_matches_pattern context pattern_contexts = Ok false.
Proof.
  induction 1 as [|pc pcs [Hne Hnone] _ IH]; [done |].
  rewrite context_match_cons by done. rewrite count_matches_none by done.
  rewrite bool_decide_eq_false_2; [done |]. destruct pc; [done | cbn; lia].
Qed.

Lemma keyless_query_matches_nothing_witness :
  _context_matches_pattern [] [boundary_pattern; boundary_query] = Ok false.
Proof.
  apply keyless_query_matches_nothing. repeat constructor; done.
Defined.


(** ** More on [analyze_patterns] *)

Lemma groups_append_total {A : Type} (groups : list (string * list A))
    (key : string) (x : A) :
  bucket_total (groups_append groups key x) = S (bucket_total groups).
Proof.
  unfold bucket_total.
  induction groups as [|[k xs] groups IH]; [done |]. cbn [groups_append].
  destruct (String.eqb k key); cbn [foldr snd].
  - rewrite length_app. cbn [length]. lia.
  - rewrite IH. lia.
Qed.

(** The buckets share out the grouped entries: no entry twice, none lost. *)
Lemma group_by_total {A : Type} (key : A → string) (data : list A) :
  bucket_total (group_by key data) = length data.
Proof.
  unfold group_by.
  enough (∀ groups,
    bucket_total
      (fold_left (fun groups entry => groups_append groups (key entry) entry)
         data groups) = (bucket_total groups + length data)%nat) as H
    by apply (H []).
  induction data as [|x data IH]; intros groups; cbn [fold_left length];
    [lia |].
  rewrite IH, groups_append_total. lia.
Qed.

Lemma bucket_total_filter {A : Type} (p : string * list A → bool)
    (groups : list (string * list A)) :
  (bucket_total (List.filter p groups) ≤ bucket_total groups)%nat.
Proof.
  unfold bucket_total.
  induction groups as [|b groups IH]; [done |]. cbn [List.filter].
  destruct (p b); cbn [foldr]; lia.
Qed.

Lemma total_frequency_Permutation (l1 l2 : list PatternInsight.t) :
  l1 ≡ₚ l2 → total_frequency l1 = total_frequency l2.
Proof.
  unfold total_frequency. induction 1; cbn [foldr]; lia.
Qed.

Lemma Forall2_elem_r {A B : Type} (R : A → B → Prop) (l1 : list A)
    (l2 : list B) (y : B) :
  Forall2 R l1 l2 → y ∈ l2 → ∃ x, x ∈ l1 ∧ R x y.
Proof.
  induction 1 as [|x y' l1 l2 HR _ IH]; intros Hin.
  - by apply elem_of_nil in Hin.
  - apply elem_of_cons in Hin as [-> | Hin].
    + exists x. split; [apply elem_of_cons; by left | done].
    + destruct (IH Hin) as (x' & Hx' & HR'). exists x'.
      split; [apply elem_of_cons; by right | done].
Qed.

Section MoreAnalysis.

Variable sha256_hexdigest : string → string.
Variable self : LearningTracker.

(** Every field of the insight of a bucket that holds an entry. *)
Lemma generate_value (signature : string) (entries : list LearningEntry.t) :
  entries ≠ [] →
  _generate_pattern_insight sha256_hexdigest signature entries =
  Ok (PatternInsight.mk (Str.take 12 (sha256_hexdigest signature))
        (split_head signature) (length entries) (bucket_success_rate entries)
        (map LearningEntry.context entries)
        (elements (list_to_set (map LearningEntry.agent entries) : gset string))
        (elements (list_to_set (map LearningEntry.project entries)
                   : gset string))
        (_extract_recommendations (List.filter is_successful entries))
        (fold_left Z.max (tl (map LearningEntry.timestamp entries))
           (hd 0%Z (map LearningEntry.timestamp entries)))).
Proof. by destruct entries. Qed.

(** Where a returned insight comes from: a bucket of the entries that
    reached the grouping loop, kept by both thresholds. *)
Lemma analyze_patterns_origin (now : Z) (agent pattern_type : option string)
    (days_back : Z) (s : Store) :
  let data :=
    filtered_data now agent pattern_type days_back
      (_load_json (learning_db s) []) in
  representable_cutoff now days_back →
  ∃ insights,
    analyze_patterns sha256_hexdigest self now agent pattern_type days_back s
    = Ok insights
    ∧ (total_frequency insights ≤ length data)%nat
    ∧ Forall (fun insight =>
        ∃ signature entries,
          entries ≠ []
          ∧ entries = List.filter
                        (fun e => String.eqb (_create_pattern_signature e)
                                    signature) data
          ∧ qualifies self (signature, entries) = true
          ∧ _generate_pattern_insight sha256_hexdigest signature entries
            = Ok insight) insights.
Proof.
  intros data Hcutoff.
  destruct (analyze_patterns_candidates sha256_hexdigest self now agent
              pattern_type days_back s Hcutoff) as (candidates & Hrun & Hall).
  fold data in Hall. exists (sort_desc candidates). split; [done |]. split.
  - rewrite (total_frequency_Permutation _ _ (sort_desc_perm candidates)).
    rewrite <- (group_by_total _create_pattern_signature data),
      group_by_buckets.
    etransitivity; [| apply (bucket_total_filter (qualifies self))].
    assert (Forall (fun bucket : string * list LearningEntry.t => bucket.2 ≠ [])
              (List.filter (qualifies self)
                 (buckets_of _create_pattern_signature data))) as Hne.
    { apply Forall_forall. intros [k es] [Hin _]%list_elem_of_In%filter_In.
      by apply list_elem_of_In, buckets_of_elem in Hin as [_ ?]. }
    clear Hrun.
    induction Hall as [|bucket insight buckets insights Hgen _ IH]; [done |].
    apply Forall_cons in Hne as [Hb Hne].
    rewrite generate_value in Hgen by done. injection Hgen as <-.
    cbn [total_frequency bucket_total foldr PatternInsight.frequency].
    specialize (IH Hne). unfold total_frequency, bucket_total in IH. lia.
  - rewrite sort_desc_perm. apply Forall_forall. intros insight Hin.
    destruct (Forall2_elem_r _ _ _ _ Hall Hin) as ([k es] & Hbucket & Hgen).
    apply list_elem_of_In, filter_In in Hbucket as [Hbucket Hq].
    apply list_elem_of_In, buckets_of_elem in Hbucket as [Hes Hne].
    exists k, es. by repeat split.
Qed.

(** X10.  When the cutoff [now - timedelta(days=days_back)] is a date the
    calendar has, the returned insights never count an event twice: their
    frequencies add up to at most the number of stored events that passed
    the window and the filters, each frequency being at least
    min_pattern_frequency; so when fewer events than min_pattern_frequency
    passed, the result is empty. *)
Theorem analyze_patterns_frequency_budget (now : Z)
    (agent pattern_type : option string) (days_back : Z) (s : Store) :
  let stored := _load_json (learning_db s) [] in
  let data := filtered_data now agent pattern_type days_back stored in
  representable_cutoff now days_back →
  ∃ insights,
    analyze_patterns sha256_hexdigest self now agent pattern_type days_back s
    = Ok insights
    ∧ (total_frequency insights ≤ length data)%nat
    ∧ (length data ≤ length stored)%nat
    ∧ Forall (fun insight =>
                (min_pattern_frequency self
                 ≤ Z.of_nat (PatternInsight.frequency insight))%Z
                ∧ (1 ≤ PatternInsight.frequency insight)%nat) insights
    ∧ ((Z.of_nat (length data) < min_pattern_frequency self)%Z →
       insights = []).
Proof.
  intros stored data Hcutoff.
  destruct (analyze_patterns_origin now agent pattern_type days_back s Hcutoff)
    as (insights & Hrun & Htotal & Horigin).
  fold stored data in Htotal, Horigin.
  assert (Forall (fun insight =>
            (min_pattern_frequency self
             ≤ Z.of_nat (PatternInsight.frequency insight))%Z
            ∧ (1 ≤ PatternInsight.frequency insight)%nat) insights) as Hfreq.
  { eapply Forall_impl; [exact Horigin |].
    intros insight (k & es & Hne & _ & Hq & Hgen).
    rewrite generate_value in Hgen by done. injection Hgen as <-.
    cbn [PatternInsight.frequency].
    apply andb_true_iff in Hq as [Hq%Z.leb_le _]. cbn [snd] in Hq.
    split; [done |]. destruct es; [done | cbn; lia]. }
  exists insights. split; [done |]. split; [done |]. split.
  { unfold data, filtered_data, entries_since, filter_field.
    repeat (destruct (truthy _));
      repeat (etransitivity; [apply filter_length_le |]); done. }
  split; [done |]. intros Hfew.
  destruct insights as [|insight insights]; [done |].
  apply Forall_cons in Hfreq as [[Hmin _] _].
  cbn [total_frequency foldr] in Htotal. lia.
Qed.

(** X11.  When the cutoff [now - timedelta(days=days_back)] is a date the
    calendar has: with an agent filter in force every returned insight
    lists that agent and no other; with a category filter in force every
    returned insight carries the text of that category before its first
    underscore as pattern_type. *)
Theorem analyze_patterns_respects_filters (now : Z)
    (agent pattern_type : option string) (days_back : Z) (s : Store) :
  representable_cutoff now days_back →
  ∃ insights,
    analyze_patterns sha256_hexdigest self now agent pattern_type days_back s
    = Ok insights
    ∧ (∀ a, truthy agent = Some a →
         Forall (fun insight => PatternInsight.agents insight = [a]) insights)
    ∧ (∀ p, truthy pattern_type = Some p →
         Forall (fun insight =>
                   PatternInsight.pattern_type insight = split_head p)
           insights).
Proof.
  intros Hcutoff.
  destruct (analyze_patterns_origin now agent pattern_type days_back s Hcutoff)
    as (insights & Hrun & _ & Horigin).
  exists insights. split; [done |]. split.
  - intros a Ha. eapply Forall_impl; [exact Horigin |].
    intros insight (k & es & Hne & Hes & _ & Hgen).
    rewrite generate_value in Hgen by done. injection Hgen as <-.
    cbn [PatternInsight.agents].
    assert ((list_to_set (map LearningEntry.agent es) : gset string) = {[a]})
      as ->; [| apply elements_singleton].
    apply set_eq. intros x.
    rewrite elem_of_list_to_set, list_elem_of_fmap, elem_of_singleton. split.
    + intros (e & -> & He). rewrite Hes in He.
      apply list_elem_of_In, filter_In in He as [He _].
      apply list_elem_of_In, filtered_data_elem in He as (_ & _ & Hagent & _).
      by apply Hagent.
    + intros ->. destruct es as [|e es']; [done |]. exists e.
      split; [| apply elem_of_cons; by left].
      assert (e ∈ e :: es') as He by (apply elem_of_cons; by left).
      rewrite Hes in He. apply list_elem_of_In, filter_In in He as [He _].
      apply list_elem_of_In, filtered_data_elem in He as (_ & _ & Hagent & _).
      symmetry. by apply Hagent.
  - intros p Hp. eapply Forall_impl; [exact Horigin |].
    intros insight (k & es & Hne & Hes & _ & Hgen).
    rewrite generate_value in Hgen by done. injection Hgen as <-.
    cbn [PatternInsight.pattern_type].
    destruct es as [|e es']; [done |].
    assert (e ∈ e :: es') as He by (apply elem_of_cons; by left).
    rewrite Hes in He. apply list_elem_of_In, filter_In in He as [He Hk].
    apply String.eqb_eq in Hk as <-.
    apply list_elem_of_In, filtered_data_elem in He as (_ & _ & _ & Htype).
    by rewrite signature_head, (Htype p Hp).
Qed.

Lemma fold_left_max_ge (l : list Z) (x : Z) :
  (x ≤ fold_left Z.max l x)%Z
  ∧ Forall (fun y => (y ≤ fold_left Z.max l x)%Z) l
  ∧ fold_left Z.max l x ∈ x :: l.
Proof.
  revert x. induction l as [|y l IH]; intros x; cbn [fold_left].
  - split; [lia |]. split; [constructor | apply elem_of_cons; by left].
  - destruct (IH (Z.max x y)) as (Hge & Hall & Hin). split; [lia |].
    split; [constructor; [lia | done] |].
    apply elem_of_cons in Hin as [Heq | Hin].
    + rewrite Heq. destruct (Z.max_spec x y) as [[_ ->] | [_ ->]].
      * apply elem_of_cons. right. apply elem_of_cons. by left.
      * apply elem_of_cons. by left.
    + apply elem_of_cons. right. apply elem_of_cons. by right.
Qed.

(** X12.  The last_seen of the insight of a bucket is the latest timestamp
    in the bucket: no entry of the bucket is later, and some entry has
    it. *)
Theorem last_seen_is_latest (signature : string)
    (entries : list LearningEntry.t) :
  entries ≠ [] →
  ∃ insight,
    _generate_pattern_insight sha256_hexdigest signature entries = Ok insight
    ∧ Forall (fun e => (LearningEntry.timestamp e
                        ≤ PatternInsight.last_seen insight)%Z) entries
    ∧ ∃ e, e ∈ entries
           ∧ LearningEntry.timestamp e = PatternInsight.last_seen insight.
Proof.
  intros Hne. eexists. split; [by apply generate_value |].
  cbn [PatternInsight.last_seen]. destruct entries as [|e entries]; [done |].
  cbn [map hd tl].
  destruct (fold_left_max_ge (map LearningEntry.timestamp entries)
              (LearningEntry.timestamp e)) as (Hge & Hall & Hin).
  split.
  - constructor; [done |]. apply Forall_forall. intros e' He'.
    rewrite Forall_forall in Hall. apply Hall.
    by apply (list_elem_of_fmap_2 LearningEntry.timestamp).
  - change (LearningEntry.timestamp e :: map LearningEntry.timestamp entries)
      with (map LearningEntry.timestamp (e :: entries)) in Hin.
    apply list_elem_of_fmap in Hin as (e' & Heq & He'). by exists e'.
Qed.

(** X13.  When the cutoff [now - timedelta(days=days_back)] is a date the
    calendar has, and the stored events that pass the window and the filters all
    have one signature and all count as successful, and there are at least
    min_pattern_frequency of them (the threshold being at most 1),
    [analyze_patterns] returns exactly one insight: its frequency is their
    number, its success_rate is 1 and its contexts are theirs in stored
    order. *)
Theorem analyze_patterns_single_bucket (now : Z)
    (agent pattern_type : option string) (days_back : Z) (s : Store)
    (signature : string) :
  let data :=
    filtered_data now agent pattern_type days_back
      (_load_json (learning_db s) []) in
  representable_cutoff now days_back →
  data ≠ [] →
  Forall (fun e => _create_pattern_signature e = signature) data →
  Forall (fun e => is_successful e = true) data →
  (min_pattern_frequency self ≤ Z.of_nat (length data))%Z →
  (min_confidence_threshold self <= 1)%Q →
  ∃ insight,
    analyze_patterns sha256_hexdigest self now agent pattern_type days_back s
    = Ok [insight]
    ∧ _generate_pattern_insight sha256_hexdigest signature data = Ok insight
    ∧ PatternInsight.frequency insight = length data
    ∧ (PatternInsight.success_rate insight == 1)%Q
    ∧ PatternInsight.contexts insight = map LearningEntry.context data.
Proof.
  intros data Hcutoff Hne Hsig Hsucc Hfreq Hthr.
  assert (List.filter is_successful data = data) as Hall.
  { apply forallb_filter_id, forallb_forall. intros e He.
    rewrite Forall_forall in Hsucc. by apply Hsucc, list_elem_of_In. }
  assert (bucket_success_rate data == 1)%Q as Hrate.
  { unfold bucket_success_rate. rewrite Hall. unfold Qeq. cbn [Qnum Qden].
    rewrite Zpos_of_nat by by destruct data. lia. }
  assert (group_by _create_pattern_signature data = [(signature, data)])
    as Hgroups.
  { clear -Hne Hsig. unfold group_by.
    destruct data as [|e data]; [done |].
    apply Forall_cons in Hsig as [<- Hsig]. cbn [fold_left groups_append].
    clear Hne. enough (∀ xs, fold_left
              (fun groups entry =>
                 groups_append groups (_create_pattern_signature entry) entry)
              data [(_create_pattern_signature e, xs)]
              = [(_create_pattern_signature e, xs ++ data)]) as H
      by apply (H [e]).
    induction Hsig as [|e' data He' _ IH]; intros xs;
      [by rewrite app_nil_r |].
    cbn [fold_left groups_append]. rewrite He', String.eqb_refl, IH.
    by rewrite <- app_assoc. }
  eexists. unfold analyze_patterns.
  rewrite cutoff_date_representable by done. cbn [mbind result_bind].
  fold (filtered_data now agent pattern_type days_back
          (_load_json (learning_db s) [])).
  fold data. rewrite Hgroups.
  cbn [insights_loop]. destruct (Z.leb_spec (min_pattern_frequency self)
                                   (Z.of_nat (length data))); [| lia].
  rewrite generate_value by done. cbn [mbind result_bind mret result_ret
    PatternInsight.success_rate].
  rewrite (proj2 (Qle_bool_iff _ _)) by (by rewrite Hrate).
  cbn [sort_desc foldr insert_desc]. by repeat split.
Qed.

(** X23.  [analyze_patterns] returns a list exactly when the cutoff date
    of line 147 can be formed, that is when [days_back] is a number of
    days a [timedelta] can hold and [now] less that many days is a date
    of the years 1 to 9999; in every other case the call raises
    [OverflowError], whatever the log holds. *)
Theorem analyze_patterns_returns_iff_cutoff (now : Z)
    (agent pattern_type : option string) (days_back : Z) (s : Store) :
  ((∃ insights,
      analyze_patterns sha256_hexdigest self now agent pattern_type days_back s
      = Ok insights)
   ↔ representable_cutoff now days_back)
  ∧ (¬ representable_cutoff now days_back →
     analyze_patterns sha256_hexdigest self now agent pattern_type days_back s
     = Raise OverflowError).
Proof.
  split; [split |].
  - intros [insights Hrun]. by eapply analyze_patterns_inv.
  - intros Hcutoff.
    destruct (analyze_patterns_candidates sha256_hexdigest self now agent
                pattern_type days_back s Hcutoff) as (candidates & Hrun & _).
    by eexists.
  - apply analyze_patterns_overflow.
Qed.

End MoreAnalysis.

Lemma analyze_patterns_frequency_budget_witness :
  representable_cutoff 1000 30
  ∧ analyze_patterns sample_digest (init "demo") 1000 None None 30
      (mkStore (Some (take 2 mixed_bucket)) None None) = Ok [].
Proof.
  assert (representable_cutoff 1000 30) as Hcutoff
    by (repeat split; vm_compute; discriminate).
  split; [exact Hcutoff |].
  destruct (analyze_patterns_frequency_budget sample_digest (init "demo") 1000
              None None 30 (mkStore (Some (take 2 mixed_bucket)) None None)
              Hcutoff)
    as (insights & Hrun & _ & _ & _ & Hfew).
  rewrite Hrun. f_equal. apply Hfew. vm_compute. reflexivity.
Defined.

Lemma analyze_patterns_respects_filters_witness :
  representable_cutoff 1000 30
  ∧ truthy (Some "sherlock") = Some "sherlock"
  ∧ truthy (Some "bug_fix") = Some "bug_fix"
  ∧ ∃ insights,
      analyze_patterns sample_digest (init "demo") 1000 (Some "sherlock")
        (Some "bug_fix") 30 sample_store = Ok insights
      ∧ length insights = 1%nat
      ∧ Forall (fun insight => PatternInsight.agents insight = ["sherlock"])
          insights
      ∧ Forall (fun insight => PatternInsight.pattern_type insight = "bug")
          insights.
Proof.
  assert (representable_cutoff 1000 30) as Hcutoff
    by (repeat split; vm_compute; discriminate).
  split; [exact Hcutoff |]. split; [reflexivity |]. split; [reflexivity |].
  destruct (analyze_patterns_respects_filters sample_digest (init "demo") 1000
              (Some "sherlock") (Some "bug_fix") 30 sample_store Hcutoff)
    as (insights & Hrun & Hagent & Htype).
  exists insights. split; [exact Hrun |]. split.
  - vm_compute in Hrun. by injection Hrun as <-.
  - split; [apply Hagent; reflexivity |].
    apply (Htype "bug_fix"). reflexivity.
Defined.


Lemma last_seen_is_latest_witness :
  ∃ insight,
    _generate_pattern_insight sample_digest "bug_fix_file_type" mixed_bucket
    = Ok insight
    ∧ PatternInsight.last_seen insight = 300%Z.
Proof.
  destruct (last_seen_is_latest sample_digest "bug_fix_file_type" mixed_bucket)
    as (insight & Hrun & _ & _); [done |].
  exists insight. split; [exact Hrun |].
  vm_compute in Hrun. by injection Hrun as <-.
Defined.

Lemma analyze_patterns_single_bucket_witness :
  ∃ insight,
    analyze_patterns sample_digest (init "demo") 1000 (Some "sherlock") None 30
      empty_context_store = Ok [insight]
    ∧ PatternInsight.frequency insight = 3%nat.
Proof.
  destruct (analyze_patterns_single_bucket sample_digest (init "demo") 1000
              (Some "sherlock") None 30 empty_context_store "bug_fix_")
    as (insight & Hrun & _ & Hfreq & _).
  - repeat split; vm_compute; discriminate.
  - done.
  - repeat constructor.
  - repeat constructor.
  - vm_compute. discriminate.
  - vm_compute. discriminate.
  - exists insight. split; [exact Hrun | exact Hfreq].
Defined.

Lemma analyze_patterns_returns_iff_cutoff_witness :
  analyze_patterns sample_digest (init "demo") sample_now None None 739000
    sample_store ≠ Raise OverflowError
  ∧ analyze_patterns sample_digest (init "demo") sample_now (Some "sherlock")
      (Some "bug_fix") 1000000000 empty_context_store = Raise OverflowError.
Proof.
  split.
  - destruct (analyze_patterns_returns_iff_cutoff sample_digest (init "demo")
                sample_now None None 739000 sample_store) as [[_ Hreturns] _].
    destruct Hreturns as [insights ->]; [| done].
    repeat split; vm_compute; discriminate.
  - apply (analyze_patterns_returns_iff_cutoff sample_digest (init "demo")
             sample_now (Some "sherlock") (Some "bug_fix") 1000000000
             empty_context_store).
    intros [Hdays _]. vm_compute in Hdays. by apply Hdays.
Defined.

(** ** More on [get_recommendations] *)

Lemma extract_recommendations_texts (entries : list LearningEntry.t)
    (text : string) :
  text ∈ _extract_recommendations entries → text ∈ recommendation_texts.
Proof.
  unfold _extract_recommendations.
  rewrite elem_of_elements, elem_of_list_to_set, list_elem_of_In, in_concat.
  intros (l & Hl & Hin). apply in_map_iff in Hl as (e & <- & _).
  apply list_elem_of_In, outcome_recommendations_elem in Hin
    as (needle & Htrigger & _).
  unfold recommendation_triggers in Htrigger. unfold recommendation_texts.
  repeat (apply elem_of_cons in Htrigger as [[= _ ->] | Htrigger];
          [repeat first [apply list_elem_of_here | apply list_elem_of_further] |]).
  by apply elem_of_nil in Htrigger.
Qed.

Lemma collect_recommendations_subset (context : Dict)
    (insights : list PatternInsight.t) (recommendations result : list string) :
  collect_recommendations context insights recommendations = Ok result →
  ∀ text, text ∈ result →
    text ∈ recommendations
    ∨ ∃ insight, insight ∈ insights
                 ∧ text ∈ PatternInsight.recommendations insight.
Proof.
  revert recommendations.
  induction insights as [|insight insights IH]; intros recommendations.
  - intros [= <-] text Hin. by left.
  - cbn [collect_recommendations].
    destruct (_context_matches_pattern _ _) as [matched|]; [| done].
    cbn [mbind result_bind]. intros Hrun text Hin.
    destruct (IH _ Hrun text Hin) as [Hacc | (i & Hi & Htext)].
    + destruct matched; [| by left].
      apply elem_of_app in Hacc as [Hacc | Hnew]; [by left |].
      right. exists insight. split; [apply elem_of_cons; by left | done].
    + right. exists i. split; [apply elem_of_cons; by right | done].
Qed.

Section MoreRecommendations.

Variable sha256_hexdigest : string → string.
Variable self : LearningTracker.

(** X14.  Whatever [get_recommendations] returns is made of the four
    trigger texts, each at most once: the list never has more than four
    entries, so the cut at five never removes anything. *)
Theorem get_recommendations_texts (now : Z) (agent : string) (context : Dict)
    (s : Store) (result : list string) :
  get_recommendations sha256_hexdigest self now agent context s = Ok result →
  NoDup result
  ∧ (∀ text, text ∈ result → text ∈ recommendation_texts)
  ∧ (length result ≤ 4)%nat.
Proof.
  intros Hrun.
  assert (NoDup result) as Hnodup
    by (by eapply get_recommendations_shape).
  assert (∀ text, text ∈ result → text ∈ recommendation_texts) as Hsub.
  { unfold get_recommendations in Hrun.
    assert (representable_cutoff now 30) as Hcutoff.
    { destruct (analyze_patterns sha256_hexdigest self now (Some agent) None
                  30 s) as [insights|] eqn:Hana; [| done].
      by eapply analyze_patterns_inv. }
    destruct (analyze_patterns_origin sha256_hexdigest self now (Some agent)
                None 30 s Hcutoff) as (insights & Hana & _ & Horigin).
    rewrite Hana in Hrun. cbn [mbind result_bind] in Hrun.
    destruct (collect_recommendations context insights [])
      as [recommendations|] eqn:Hcollect; [| done].
    injection Hrun as <-. intros text Htext.
    apply (subseteq_take 5) in Htext.
    rewrite elem_of_dict_fromkeys in Htext.
    destruct (collect_recommendations_subset _ _ _ _ Hcollect text Htext)
      as [Hnil | (insight & Hin & Hrec)]; [by apply elem_of_nil in Hnil |].
    rewrite Forall_forall in Horigin.
    destruct (Horigin insight Hin) as (k & es & Hne & _ & _ & Hgen).
    rewrite generate_value in Hgen by done. injection Hgen as <-.
    by eapply extract_recommendations_texts. }
  split; [done |]. split; [done |].
  apply (submseteq_length _ recommendation_texts). by apply NoDup_submseteq.
Qed.

End MoreRecommendations.

Lemma get_recommendations_texts_witness :
  get_recommendations sample_digest (init "demo") 1000 "sherlock"
    [("file_type", VStr "JavaScript")] sample_store
  = Ok ["Add comprehensive tests for this pattern"]
  ∧ (length ["Add comprehensive tests for this pattern"] ≤ 4)%nat.
Proof.
  split; [reflexivity |].
  apply (get_recommendations_texts sample_digest (init "demo") 1000 "sherlock"
           [("file_type", VStr "JavaScript")] sample_store).
  reflexivity.
Defined.

(** ** Recording, then analysing *)

Section ReadAfterWrite.

Variable sha256_hexdigest : string → string.
Variable isoformat : Z → string.
Variable str_dict : Dict → string.
Variable self : LearningTracker.

Lemma record_call_log (c : Call) (s : Store) :
  learning_db (record_call sha256_hexdigest isoformat str_dict self c s).1
  = Some (_load_json (learning_db s) []
          ++ [entry_of sha256_hexdigest isoformat str_dict self c]).
Proof.
  rewrite record_call_unfold. cbn zeta. cbn [fst].
  by destruct (update_pattern_insights_cases
                 (entry_of sha256_hexdigest isoformat str_dict self c)
                 (save_learning_db
                    (_load_json (learning_db s) []
                     ++ [entry_of sha256_hexdigest isoformat str_dict self c])
                    s)) as (-> & _).
Qed.

Lemma filter_field_snoc (field : LearningEntry.t → string) (o : option string)
    (data : list LearningEntry.t) (e : LearningEntry.t) :
  (∀ v, truthy o = Some v → field e = v) →
  filter_field field o (data ++ [e]) = filter_field field o data ++ [e].
Proof.
  intros Hfield. unfold filter_field. destruct (truthy o) as [v|]; [| done].
  by rewrite filter_snoc, (Hfield v eq_refl), String.eqb_refl.
Qed.

(** X15.  An analysis that follows a [record_learning] sees the event just
    recorded (whether or not the call raised): when the event is inside
    the window and passes the filters it reaches the grouping loop, after
    every event stored before it, and it is the last entry of the bucket
    of its signature. *)
Theorem recorded_event_is_analysed (c : Call) (s : Store) (now : Z)
    (agent pattern_type : option string) (days_back : Z) :
  let entry := entry_of sha256_hexdigest isoformat str_dict self c in
  let s' := (record_call sha256_hexdigest isoformat str_dict self c s).1 in
  let data :=
    filtered_data now agent pattern_type days_back
      (_load_json (learning_db s') []) in
  (now - days_back * microseconds_per_day ≤ call_now c)%Z →
  (∀ a, truthy agent = Some a → call_agent c = a) →
  (∀ p, truthy pattern_type = Some p → call_pattern_type c = p) →
  data
  = filtered_data now agent pattern_type days_back
      (_load_json (learning_db s) []) ++ [entry]
  ∧ ∃ before,
      (_create_pattern_signature entry, before ++ [entry])
      ∈ group_by _create_pattern_signature data.
Proof.
  intros entry s' data Hwindow Hagent Htype.
  assert (data
          = filtered_data now agent pattern_type days_back
              (_load_json (learning_db s) []) ++ [entry]) as Hdata.
  { subst data s'. rewrite record_call_log. cbn [_load_json]. fold entry.
    unfold filtered_data, entries_since. rewrite filter_snoc.
    change (LearningEntry.timestamp entry) with (call_now c).
    rewrite (proj2 (Z.leb_le _ _)) by done.
    by rewrite !filter_field_snoc. }
  split; [done |]. rewrite group_by_buckets, Hdata.
  eexists. apply buckets_of_elem. rewrite filter_snoc, String.eqb_refl.
  split; [reflexivity |]. by destruct (List.filter _ _).
Qed.

End ReadAfterWrite.

Lemma recorded_event_is_analysed_witness :
  ∃ before,
    filtered_data 1000 (Some "sherlock") None 30
      (_load_json
         (learning_db
            (record_call sample_digest sample_isoformat sample_str_dict
               (init "demo")
               (mkCall 400 "sherlock" "bug_fix" [] "Added a test" (9 # 10) None)
               sample_store).1) [])
    = before
      ++ [entry_of sample_digest sample_isoformat sample_str_dict (init "demo")
            (mkCall 400 "sherlock" "bug_fix" [] "Added a test" (9 # 10) None)].
Proof.
  eexists.
  apply (recorded_event_is_analysed sample_digest sample_isoformat
           sample_str_dict (init "demo")
           (mkCall 400 "sherlock" "bug_fix" [] "Added a test" (9 # 10) None)
           sample_store 1000 (Some "sherlock") None 30).
  - vm_compute. discriminate.
  - by intros a [= <-].
  - by intros p [=].
Defined.

(** ** More on [sync_with_global] *)

Lemma NoDup_map_filter {A B : Type} (f : A → B) (p : A → bool) (l : list A) :
  NoDup (map f l) → NoDup (map f (List.filter p l)).
Proof.
  induction l as [|x l IH]; [done |]. cbn [map List.filter].
  intros [Hx Hnodup]%NoDup_cons. destruct (p x); [| by apply IH].
  cbn [map]. apply NoDup_cons. split; [| by apply IH].
  intros (y & Hy & Hin)%list_elem_of_fmap. apply Hx.
  apply list_elem_of_In, filter_In in Hin as [Hin _].
  apply list_elem_of_fmap. exists y. by rewrite list_elem_of_In.
Qed.

Lemma global_candidates_small (global_data : list LearningEntry.t) :
  (length global_data < 5)%nat → global_candidates global_data = [].
Proof.
  intros Hsmall.
  destruct (global_candidates global_data) as [|[k g] l] eqn:Hcandidates;
    [done |].
  assert ((k, g) ∈ global_candidates global_data) as Hin
    by (rewrite Hcandidates; apply elem_of_cons; by left).
  apply global_candidates_elem in Hin as [Hlen _].
  pose proof (filter_length_le (fun e => String.eqb (global_key e) k)
                global_data) as Hle.
  unfold global_group in Hlen. lia.
Qed.

Section MoreSync.

Variable self : LearningTracker.

(** X16.  A sync keeps the ids of the global log unique: when neither log
    holds an id twice, the global log after the sync holds none twice; it
    starts with the old global log, unchanged and in order, and afterwards
    holds the id of every local event. *)
Theorem sync_keeps_ids_unique (s : Store) :
  let project_data := _load_json (learning_db s) [] in
  let global_data := _load_json (global_db s) [] in
  let global_after := _load_json (global_db (sync_with_global self s).1) [] in
  NoDup (map LearningEntry.hash_id global_data) →
  NoDup (map LearningEntry.hash_id project_data) →
  NoDup (map LearningEntry.hash_id global_after)
  ∧ global_data `prefix_of` global_after
  ∧ (∀ e, e ∈ project_data →
       LearningEntry.hash_id e ∈ map LearningEntry.hash_id global_after)
  ∧ (∀ e, e ∈ global_after → e ∈ global_data ∨ e ∈ project_data).
Proof.
  intros project_data global_data global_after Hglobal Hlocal.
  subst global_after. rewrite sync_with_global_unfold. cbn zeta.
  cbn [fst global_db _load_json]. fold project_data global_data.
  split; [| split; [| split]].
  - rewrite map_app. apply NoDup_app. split; [done |].
    split; [| by apply NoDup_map_filter].
    intros id Hid (e & -> & He)%list_elem_of_fmap.
    apply list_elem_of_In, filter_In in He as [_ Habsent].
    unfold absent_from in Habsent. by apply bool_decide_eq_true in Habsent.
  - by apply prefix_app_r.
  - intros e He. rewrite map_app, elem_of_app.
    destruct (decide (LearningEntry.hash_id e
                      ∈ map LearningEntry.hash_id global_data)) as [Hin|Hout].
    + by left.
    + right. apply list_elem_of_fmap. exists e. split; [done |].
      apply list_elem_of_In, filter_In. split; [by apply list_elem_of_In |].
      by apply bool_decide_eq_true.
  - intros e [He | He]%elem_of_app; [by left | right].
    by apply list_elem_of_In, filter_In in He as [He%list_elem_of_In _].
Qed.

Lemma same_record_refl (a : InsightRecord) : same_record a a.
Proof. destruct a; cbn; [done | by repeat split]. Qed.

Lemma same_record_sym (a b : InsightRecord) : same_record a b → same_record b a.
Proof.
  destruct a, b; cbn; try done.
  intros (Hf & Hr & Hp). by repeat split.
Qed.

(** X17.  Running [sync_with_global] a second time changes no file, up to
    the order in which a global record lists its projects (an order the
    interpreter picks anew in every run): started on the files the first
    run left, or on files that differ from them in such orders only, the
    second run leaves both logs as they are and an insight index that
    differs from the one it read in such orders only, and it reports
    nothing uploaded, the same number downloaded and the same totals. *)
Theorem sync_twice_changes_nothing (s : Store) :
  ∃ s1 stats,
    sync_with_global self s = (s1, Ok stats)
    ∧ ∀ s1',
        learning_db s1' = learning_db s1 →
        global_db s1' = global_db s1 →
        same_index (_load_json (insights_db s1') ∅)
          (_load_json (insights_db s1) ∅) →
        ∃ s2 stats',
          sync_with_global self s1' = (s2, Ok stats')
          ∧ learning_db s2 = learning_db s1'
          ∧ global_db s2 = global_db s1'
          ∧ same_index (_load_json (insights_db s2) ∅)
              (_load_json (insights_db s1') ∅)
          ∧ uploaded stats' = 0%nat
          ∧ downloaded stats' = downloaded stats
          ∧ total_global stats' = total_global stats
          ∧ total_local stats' = total_local stats.
Proof.
  pose proof (sync_with_global_unfold self s) as Hfirst. cbn zeta in Hfirst.
  set (project_data := _load_json (learning_db s) []) in *.
  set (global_data := _load_json (global_db s) []) in *.
  set (merged_global :=
         global_data ++ List.filter (absent_from global_data) project_data) in *.
  set (candidates := global_candidates merged_global) in *.
  set (merged := fold_left (merge_step self) candidates
                   (_load_json (insights_db s) ∅, 0%nat)) in *.
  eexists _, _. split; [exact Hfirst |].
  cbn [learning_db global_db insights_db _load_json].
  intros s1' Hlog Hglobal Hindex.
  pose proof (sync_with_global_unfold self s1') as Hsecond.
  cbn zeta in Hsecond. rewrite Hlog, Hglobal in Hsecond.
  cbn [_load_json] in Hsecond. fold project_data in Hsecond.
  assert (List.filter (absent_from merged_global) project_data = []) as Hnone
    by apply filter_absent_again.
  rewrite !Hnone, !app_nil_r in Hsecond. fold candidates in Hsecond.
  eexists _, _. split; [exact Hsecond |].
  cbn [learning_db global_db insights_db _load_json uploaded downloaded
       total_global total_local].
  split; [done |]. split; [done |]. split; [| split; [done |]].
  - intros key.
    destruct (decide (key ∈ map fst (List.filter (relevant_here self)
                                       candidates))) as [Hin|Hout].
    + apply list_elem_of_fmap in Hin as ([k g] & -> & Hitem).
      apply list_elem_of_In, filter_In in Hitem as [Hitem Hrel].
      apply list_elem_of_In in Hitem. cbn [fst].
      rewrite (merge_imported self candidates _ k g);
        [| apply global_candidates_keys | done | done].
      specialize (Hindex k). unfold merged in Hindex.
      rewrite (merge_imported self candidates _ k g) in Hindex;
        [| apply global_candidates_keys | done | done].
      destruct (_load_json (insights_db s1') ∅ !! k) as [r|]; [| done].
      by apply same_record_sym.
    + rewrite merge_untouched by done. cbn [fst].
      destruct (_load_json (insights_db s1') ∅ !! key) as [r|]; [| done].
      apply same_record_refl.
  - split; [| done]. unfold merged. by rewrite !merge_count.
Qed.

(** X18.  With fewer than five events in the merged global log no global
    insight exists, so the sync downloads nothing and the local insight
    index is written back as it was read. *)
Theorem sync_small_global_imports_nothing (s : Store) :
  let global_data := _load_json (global_db s) [] in
  let merged_global :=
    global_data
    ++ List.filter (absent_from global_data) (_load_json (learning_db s) []) in
  (length merged_global < 5)%nat →
  ∃ s' stats,
    sync_with_global self s = (s', Ok stats)
    ∧ _analyze_global_patterns merged_global = Ok []
    ∧ downloaded stats = 0%nat
    ∧ insights_db s' = Some (_load_json (insights_db s) ∅).
Proof.
  intros global_data merged_global Hsmall.
  pose proof (sync_with_global_unfold self s) as Hrun. cbn zeta in Hrun.
  fold global_data merged_global in Hrun.
  rewrite (global_candidates_small merged_global Hsmall) in Hrun.
  cbn [fold_left fst snd] in Hrun.
  eexists _, _. split; [exact Hrun |].
  rewrite analyze_global_patterns_ok, global_candidates_small by done.
  by repeat split.
Qed.

End MoreSync.

Lemma sync_keeps_ids_unique_witness :
  NoDup (map LearningEntry.hash_id
           (_load_json (global_db (sync_with_global (init "demo") sync_store).1)
              []))
  ∧ length (_load_json
              (global_db (sync_with_global (init "demo") sync_store).1) [])
    = 7%nat.
Proof.
  split; [| reflexivity].
  apply (sync_keeps_ids_unique (init "demo") sync_store).
  - apply (bool_decide_unpack
             (NoDup (map LearningEntry.hash_id
                       (_load_json (global_db sync_store) [])))).
    by vm_compute.
  - apply (bool_decide_unpack
             (NoDup (map LearningEntry.hash_id
                       (_load_json (learning_db sync_store) [])))).
    by vm_compute.
Defined.

Lemma sync_twice_changes_nothing_witness :
  ∃ s1 stats s2 stats',
    sync_with_global (init "demo") sync_store = (s1, Ok stats)
    ∧ sync_with_global (init "demo") s1 = (s2, Ok stats')
    ∧ uploaded stats = 3%nat
    ∧ uploaded stats' = 0%nat
    ∧ downloaded stats' = downloaded stats
    ∧ same_index (_load_json (insights_db s2) ∅) (_load_json (insights_db s1) ∅).
Proof.
  destruct (sync_twice_changes_nothing (init "demo") sync_store)
    as (s1 & stats & Hfirst & Hagain).
  destruct (Hagain s1 eq_refl eq_refl) as (s2 & stats' & Hsecond & _ & _ & Hsame
                                            & Hup & Hdown & _).
  { intros key. destruct (_load_json (insights_db s1) ∅ !! key); [| done].
    apply same_record_refl. }
  exists s1, stats, s2, stats'. split; [exact Hfirst |].
  split; [exact Hsecond |]. split; [| by repeat split].
  vm_compute in Hfirst. by injection Hfirst as _ <-.
Defined.

Lemma sync_small_global_imports_nothing_witness :
  ∃ s' stats,
    sync_with_global (init "demo") sample_store = (s', Ok stats)
    ∧ downloaded stats = 0%nat.
Proof.
  destruct (sync_small_global_imports_nothing (init "demo") sample_store)
    as (s' & stats & Hrun & _ & Hzero & _); [vm_compute; lia |].
  by exists s', stats.
Defined.

(** ** Global candidates *)

Lemma elements_list_to_set_length (l : list string) :
  (length (elements (list_to_set l : gset string)) ≤ length l)%nat.
Proof.
  apply submseteq_length, NoDup_submseteq; [apply NoDup_elements |].
  intros x. by rewrite elem_of_elements, elem_of_list_to_set.
Qed.

(** X19.  Every candidate [_analyze_global_patterns] produces has a
    frequency of five or more, a success_rate between 0 and 1, and a list
    of distinct projects with at least one and at most frequency
    entries. *)
Theorem global_candidates_bounds (global_data : list LearningEntry.t) :
  ∃ candidates,
    _analyze_global_patterns global_data = Ok candidates
    ∧ Forall (fun item : string * GlobalInsight.t =>
                (5 ≤ GlobalInsight.frequency item.2)%nat
                ∧ (0 <= GlobalInsight.success_rate item.2)%Q
                ∧ (GlobalInsight.success_rate item.2 <= 1)%Q
                ∧ NoDup (GlobalInsight.projects item.2)
                ∧ (1 ≤ length (GlobalInsight.projects item.2))%nat
                ∧ (length (GlobalInsight.projects item.2)
                   ≤ GlobalInsight.frequency item.2)%nat) candidates.
Proof.
  exists (global_candidates global_data).
  split; [apply analyze_global_patterns_ok |]. apply Forall_forall.
  intros [k g] [Hlen ->]%global_candidates_elem.
  set (entries := global_group k global_data) in *.
  cbn [snd global_insight_of GlobalInsight.frequency
       GlobalInsight.success_rate GlobalInsight.projects].
  pose proof (filter_length_le
                (fun e => Qltb (7 # 10) (LearningEntry.confidence e)) entries).
  split; [done |]. unfold Qle. cbn [Qnum Qden].
  rewrite Zpos_of_nat by lia.
  split; [lia |]. split; [lia |]. split; [apply NoDup_elements |]. split.
  - destruct entries as [|e entries']; [cbn in Hlen; lia |].
    destruct (elements _) as [|p ps] eqn:Helements; [| cbn; lia].
    assert (LearningEntry.project e
            ∈ elements (list_to_set (map LearningEntry.project (e :: entries'))
                        : gset string)) as Hin.
    { rewrite elem_of_elements, elem_of_list_to_set. cbn [map].
      apply elem_of_cons. by left. }
    rewrite Helements in Hin. by apply elem_of_nil in Hin.
  - etransitivity; [apply elements_list_to_set_length |]. by rewrite length_map.
Qed.

(** ** Identifiers and keys *)

Lemma take_length (n : nat) (s : string) :
  String.length (Str.take n s) = min n (String.length s).
Proof.
  unfold Str.take. revert s. induction n as [|n IH]; intros [|c s]; cbn; try done.
  by rewrite IH.
Qed.

Lemma append_assoc (a b c : string) : (a +:+ b) +:+ c = a +:+ (b +:+ c).
Proof. induction a as [|x a IH]; [done |]. by rewrite !append_cons, IH. Qed.

Section Identifiers.

Variable sha256_hexdigest : string → string.
Variable isoformat : Z → string.
Variable str_dict : Dict → string.
Variable self : LearningTracker.

(** X20.  An event id has at most 16 characters and a pattern id at most
    12, and exactly that many whenever the digest is at least that long (a
    SHA-256 hex digest has 64); the id [record_learning] returns is that
    event id. *)
Theorem identifier_lengths (c : Call) (s : Store) (signature : string)
    (entries : list LearningEntry.t) :
  let id :=
    entry_hash sha256_hexdigest isoformat str_dict (call_now c) (call_agent c)
      (call_pattern_type c) (call_context c) (call_outcome c) in
  (String.length id ≤ 16)%nat
  ∧ ((∀ text, 16 ≤ String.length (sha256_hexdigest text))%nat →
     String.length id = 16%nat)
  ∧ (∀ returned,
       (record_call sha256_hexdigest isoformat str_dict self c s).2
       = Ok returned → returned = id)
  ∧ (∀ insight,
       _generate_pattern_insight sha256_hexdigest signature entries = Ok insight →
       (String.length (PatternInsight.pattern_id insight) ≤ 12)%nat
       ∧ ((∀ text, 12 ≤ String.length (sha256_hexdigest text))%nat →
          String.length (PatternInsight.pattern_id insight) = 12%nat)).
Proof.
  intros id. subst id. unfold entry_hash. rewrite take_length.
  split; [lia |]. split; [intros Hlong |].
  { specialize (Hlong (isoformat (call_now c) +:+ call_agent c
                         +:+ call_pattern_type c +:+ str_dict (call_context c)
                         +:+ call_outcome c)). lia. }
  split.
  - intros returned. rewrite record_call_unfold. cbn zeta. cbn [snd].
    destruct (_update_pattern_insights _ _).2; [| done]. by intros [= <-].
  - intros insight Hgen. destruct entries as [|e entries']; [done |].
    rewrite generate_value in Hgen by done. injection Hgen as <-.
    cbn [PatternInsight.pattern_id]. rewrite take_length.
    split; [lia |]. intros Hlong. specialize (Hlong signature). lia.
Qed.

(** X21.  The hashed text joins its five parts without separators, so the
    id does not tell where the agent ends and the pattern type starts:
    moving text from the end of the agent to the start of the pattern type
    gives the same id, for events that differ in both fields. *)
Theorem entry_hash_ignores_part_boundaries (timestamp : Z)
    (agent moved pattern_type : string) (context : Dict)
    (outcome : string) :
  entry_hash sha256_hexdigest isoformat str_dict timestamp (agent +:+ moved)
    pattern_type context outcome
  = entry_hash sha256_hexdigest isoformat str_dict timestamp agent
      (moved +:+ pattern_type) context outcome.
Proof. unfold entry_hash. by rewrite !append_assoc. Qed.

End Identifiers.

(** ** The two success counts *)

Lemma filter_length_mono {A : Type} (p q : A → bool) (l : list A) :
  (∀ x, p x = true → q x = true) →
  (length (List.filter p l) ≤ length (List.filter q l))%nat.
Proof.
  intros Himpl. induction l as [|x l IH]; [done |]. cbn [List.filter].
  destruct (p x) eqn:Hp.
  - rewrite (Himpl x Hp). cbn [length]. lia.
  - destruct (q x); cbn [length]; lia.
Qed.

Section SuccessCounts.

Variable sha256_hexdigest : string → string.
Variable isoformat : Z → string.
Variable str_dict : Dict → string.
Variable self : LearningTracker.

(** X22.  The rolling record and the analysis count successes differently
    (confidence alone against outcome text or confidence), and they can
    only differ one way: after any sequence of recordings on a fresh
    installation the success count kept under a key is at most the number
    of events logged under that key that [_generate_pattern_insight] counts
    as successful. *)
Theorem rolling_success_below_analysis (calls : list Call) :
  ∃ s insights,
    (record_all sha256_hexdigest isoformat str_dict self calls fresh_store).1
    = s
    ∧ insights_db s = Some insights
    ∧ ∀ key insight,
        insights !! key = Some (RollingRecord insight) →
        (Rolling.success_count insight
         ≤ length (List.filter is_successful
                     (List.filter (fun e => String.eqb (rolling_key e) key)
                        (_load_json (learning_db s) []))))%nat.
Proof.
  destruct (record_all_tracked sha256_hexdigest isoformat str_dict self calls
              fresh_store fresh_store_tracked)
    as (s & Hrun & _ & _ & insights & Hdb & Hindex).
  exists s, insights. rewrite Hrun. split; [done |]. split; [done |].
  intros key insight Hlookup. rewrite Hindex in Hlookup.
  destruct (List.filter _ (_load_json (learning_db s) [])) as [|e logged];
    [done |].
  injection Hlookup as <-. cbn [rolling_of Rolling.success_count].
  apply filter_length_mono. intros x Hx. unfold is_successful.
  rewrite Hx. apply orb_true_r.
Qed.

End SuccessCounts.
